(** * Scrapling control panel: the scrape operation and its HTTP handlers

    A shallow embedding of [scrapling_server.py]: the scrape operation
    [run_scrape], the in-memory history [SCRAPE_HISTORY] and the request
    handlers [do_GET] and [do_POST] of [ScraplingHandler].

    Python values are embedded as the JSON-shaped type [pyval]; a [str] is a
    [string] with one [ascii] per character; a [dict] is an association list
    in insertion order.  A Python exception (an instance of a class derived
    from [Exception]) is an [exn]; code that may raise returns an [outcome].
    The scraping library, the clock and the parsers of the standard library
    are the fields of a record [Externals], indexed by a logical time so that
    two calls need not answer alike. *)

From Stdlib Require Import List String Ascii ZArith QArith Lia Bool Arith.
From Stdlib Require Import DecimalString.
Import ListNotations.
Local Open Scope string_scope.
Local Open Scope list_scope.
Local Open Scope Z_scope.

Set Implicit Arguments.
Set Warnings "-register-all,-abstract-large-number".

(** ** Python values *)

Inductive pyfloat : Type :=
| FFinite (q : Q)
| FInf (negative : bool)
| FNan.

Inductive pyval : Type :=
| PNone
| PBool (b : bool)
| PInt (z : Z)
| PFloat (f : pyfloat)
| PStr (s : string)
| PList (l : list pyval)
| PDict (d : list (string * pyval)).

Definition dict : Type := list (string * pyval).

(** [bool(v)]: the truth value tested by [if v:] and [not v]. *)
Definition py_truthy (v : pyval) : bool :=
  match v with
  | PNone => false
  | PBool b => b
  | PInt z => negb (z =? 0)
  | PFloat (FFinite q) => negb (Qnum q =? 0)
  | PFloat _ => true
  | PStr s => negb (String.eqb s "")
  | PList l => match l with [] => false | _ => true end
  | PDict d => match d with [] => false | _ => true end
  end.

(** [v == "lit"] for a string literal: only a [str] equal to it. *)
Definition py_eq_str (v : pyval) (lit : string) : bool :=
  match v with
  | PStr s => String.eqb s lit
  | _ => false
  end.

(** ** Dictionaries, in insertion order *)

Fixpoint dict_get (k : string) (d : dict) : option pyval :=
  match d with
  | [] => None
  | (k', v) :: d' => if String.eqb k' k then Some v else dict_get k d'
  end.

(** [d[k] = v]: replaces the value of an existing key in place, appends a
    new key at the end. *)
Fixpoint dict_set (d : dict) (k : string) (v : pyval) : dict :=
  match d with
  | [] => [(k, v)]
  | (k', v') :: d' =>
      if String.eqb k' k then (k', v) :: d' else (k', v') :: dict_set d' k v
  end.

(** [d.get(k, default)] *)
Definition dict_get_default (d : dict) (k : string) (default : pyval) : pyval :=
  match dict_get k d with
  | Some v => v
  | None => default
  end.

(** ** Strings *)

(** [s[:n]] on a [str]. *)
Fixpoint str_take (n : nat) (s : string) : string :=
  match n, s with
  | O, _ => EmptyString
  | S _, EmptyString => EmptyString
  | S n', String c s' => String c (str_take n' s')
  end.

(** [str.isspace] on one character with code point below 256. *)
Definition py_isspace (c : ascii) : bool :=
  let n := nat_of_ascii c in
  ((9 <=? n) && (n <=? 13) || (28 <=? n) && (n <=? 32)
   || (n =? 133) || (n =? 160))%nat.

Fixpoint lstrip (cs : list ascii) : list ascii :=
  match cs with
  | [] => []
  | c :: cs' => if py_isspace c then lstrip cs' else cs
  end.

(** [s.strip()] *)
Definition str_strip (s : string) : string :=
  string_of_list_ascii
    (rev (lstrip (rev (lstrip (list_ascii_of_string s))))).

(** [type(v).__name__] *)
Definition py_type_name (v : pyval) : string :=
  match v with
  | PNone => "NoneType"
  | PBool _ => "bool"
  | PInt _ => "int"
  | PFloat _ => "float"
  | PStr _ => "str"
  | PList _ => "list"
  | PDict _ => "dict"
  end.

(** ** Exceptions and outcomes *)

Record exn : Type := mkExn { exn_class : string; exn_msg : string }.

Inductive outcome (A : Type) : Type :=
| Normal (a : A)
| Raise (e : exn).

Arguments Normal {A} a.
Arguments Raise {A} e.

Definition obind {A B : Type} (m : outcome A) (k : A -> outcome B) : outcome B :=
  match m with
  | Normal a => k a
  | Raise e => Raise e
  end.

Declare Scope outcome_scope.
Delimit Scope outcome_scope with outcome.
Notation "x <- m ;; k" := (obind m (fun x => k))
  (at level 100, m at next level, right associativity) : outcome_scope.
Notation "'do' m ;; k" := (obind m (fun _ => k))
  (at level 100, m at next level, right associativity) : outcome_scope.

(** ** [int(s)] on a [str] *)

(** The white space [int] skips at both ends of a [str] with code points
    below 256: the ASCII white space of C (9 to 13 and 32) and the two
    spaces above 127; unlike [str.isspace] it does not take the separators
    28 to 31. *)
Definition int_isspace (c : ascii) : bool :=
  let n := nat_of_ascii c in
  ((9 <=? n) && (n <=? 13) || (n =? 32) || (n =? 133) || (n =? 160))%nat.

Fixpoint int_lstrip (cs : list ascii) : list ascii :=
  match cs with
  | [] => []
  | c :: cs' => if int_isspace c then int_lstrip cs' else cs
  end.

Definition is_digit (c : ascii) : bool :=
  let n := nat_of_ascii c in ((48 <=? n) && (n <=? 57))%nat.

Definition digit_val (c : ascii) : Z := Z.of_nat (nat_of_ascii c) - 48.

(** Decimal digits, single underscores allowed between two digits. *)
Fixpoint int_digits (cs : list ascii) (prev_digit : bool) (acc : Z) : option Z :=
  match cs with
  | [] => if prev_digit then Some acc else None
  | c :: cs' =>
      if is_digit c then int_digits cs' true (10 * acc + digit_val c)
      else if Ascii.eqb c "_" && prev_digit then int_digits cs' false acc
      else None
  end.

Definition int_literal (cs : list ascii) : option Z :=
  match cs with
  | "-"%char :: ds => option_map Z.opp (int_digits ds false 0)
  | "+"%char :: ds => int_digits ds false 0
  | _ => int_digits cs false 0
  end.

(** The interpreter's default limit on the digits of a decimal literal. *)
Definition int_max_str_digits : nat := 4300.

Definition ValueError (msg : string) : exn := mkExn "ValueError" msg.
Definition AttributeError (msg : string) : exn := mkExn "AttributeError" msg.
Definition TypeError (msg : string) : exn := mkExn "TypeError" msg.
Definition IndexError (msg : string) : exn := mkExn "IndexError" msg.

Definition no_attribute (v : pyval) (attr : string) : exn :=
  AttributeError ("'" ++ py_type_name v ++ "' object has no attribute '" ++ attr ++ "'").

Definition int_of_str (s : string) : outcome Z :=
  let cs := rev (int_lstrip (rev (int_lstrip (list_ascii_of_string s)))) in
  if (int_max_str_digits <? List.length (filter is_digit cs))%nat
  then Raise (ValueError "Exceeds the limit (4300 digits) for integer string conversion")
  else match int_literal cs with
       | Some z => Normal z
       | None => Raise (ValueError ("invalid literal for int() with base 10: '" ++ s ++ "'"))
       end.

(** ** Slices of a list *)

(** [l[start:]], a negative [start] counting from the end. *)
Definition slice_from {A : Type} (l : list A) (start : Z) : list A :=
  if start <? 0
  then skipn (Z.to_nat (Z.max 0 (Z.of_nat (List.length l) + start))) l
  else skipn (Z.to_nat start) l.

(** [l[:stop]] for a literal [stop >= 0]. *)
Definition slice_to {A : Type} (l : list A) (stop : nat) : list A := firstn stop l.

(** ** The page object of the scraping library *)

(** What the code observes of an element: [hasattr(el, 'text')] and
    [el.text] ([None] when the attribute is absent), [str(el)], and
    [hasattr(el, 'attrib')] with the mapping [el.attrib].  Texts and
    attribute values are [str], as the library has them. *)
Record element : Type := mkElement {
  el_text : option string;
  el_str : string;
  el_attrib : option (list (string * string))
}.

(** What the code observes of a page: its truth value, [page.css(sel)],
    [page.get_all_text()] and [str(page.body)] ([None] when [hasattr] is
    false).  The calls may raise. *)
Record page : Type := mkPage {
  page_bool : bool;
  page_css : pyval -> outcome (list element);
  page_get_all_text : option (outcome string);
  page_body : option (outcome string)
}.

(** [attrib.get(k, "")] on the attribute mapping of an element. *)
Fixpoint attrib_get (m : list (string * string)) (k : string) : string :=
  match m with
  | [] => ""
  | (k', v) :: m' => if String.eqb k' k then v else attrib_get m' k
  end.

(** ** The process state and what lies outside the program *)

(** [SCRAPE_HISTORY] is the module-level list; [now] is the logical time,
    advanced by every scrape. *)
Record world : Type := mkWorld {
  SCRAPE_HISTORY : list pyval;
  now : nat
}.

Record Externals : Type := mkExternals {
  (* the scraping library *)
  import_Fetcher : nat -> outcome unit;
  import_StealthyFetcher : nat -> outcome unit;
  import_PlayWrightFetcher : nat -> outcome unit;
  import_ScraplingMCPServer : nat -> outcome unit;
  (* [import scrapling] and [getattr(scrapling, "__version__", ...)]:
     [None] when the attribute is absent *)
  import_scrapling : nat -> outcome (option pyval);
  Fetcher_get : nat -> pyval -> outcome page;
  StealthyFetcher_fetch : nat -> pyval -> outcome page;
  PlayWrightFetcher_fetch : nat -> pyval -> outcome page;
  (* the clock *)
  datetime_now_isoformat : nat -> string;
  (* [round((time.time() - start) * 1000, 2)] *)
  elapsed_ms : nat -> pyval;
  (* [round(time.time() - SERVER_START_TIME, 1)], or [0] before [main] *)
  uptime : nat -> pyval;
  python_version : string;
  (* the standard library: [urlparse] gives [(path, query)] *)
  urlparse : string -> outcome (string * string);
  parse_qs : string -> list (string * list string);
  bytes_decode : string -> outcome string;
  json_loads : string -> outcome pyval;
  (* [str(v)] of a value that is not a [str] *)
  py_repr : pyval -> string;
  (* the embedded page [UI_HTML] *)
  UI_HTML : string
}.

(** [f"{v}"] *)
Definition py_format (X : Externals) (v : pyval) : string :=
  match v with
  | PStr s => s
  | _ => py_repr X v
  end.

Definition PORT : Z := 8888.

Section Server.

Variable X : Externals.

(** ** [check_scrapling] *)

Definition import_ok {A : Type} (o : outcome A) : bool :=
  match o with
  | Normal _ => true
  | Raise _ => false
  end.

Definition check_scrapling (t : nat) : dict :=
  let status :=
    [("fetcher", PBool false); ("stealthy_fetcher", PBool false);
     ("playwright_fetcher", PBool false); ("mcp_server", PBool false);
     ("version", PStr "unknown")] in
  let status :=
    if import_ok (import_Fetcher X t)
    then dict_set status "fetcher" (PBool true) else status in
  let status :=
    if import_ok (import_StealthyFetcher X t)
    then dict_set status "stealthy_fetcher" (PBool true) else status in
  let status :=
    if import_ok (import_PlayWrightFetcher X t)
    then dict_set status "playwright_fetcher" (PBool true) else status in
  let status :=
    if import_ok (import_ScraplingMCPServer X t)
    then dict_set status "mcp_server" (PBool true) else status in
  match import_scrapling X t with
  | Normal (Some v) => dict_set status "version" v
  | Normal None => dict_set status "version" (PStr "0.4+")
  | Raise _ => status
  end.

(** ** [run_scrape] *)

Definition len_str (s : string) : pyval := PInt (Z.of_nat (String.length s)).

Definition link_record (a : element) : pyval :=
  let href := match el_attrib a with
              | Some m => attrib_get m "href"
              | None => ""
              end in
  let txt := match el_text a with
             | Some t => t
             | None => el_str a
             end in
  PDict [("href", PStr href); ("text", PStr (str_take 100 txt))].

Definition image_record (img : element) : pyval :=
  let src := match el_attrib img with
             | Some m => attrib_get m "src"
             | None => ""
             end in
  let alt := match el_attrib img with
             | Some m => attrib_get m "alt"
             | None => ""
             end in
  PDict [("src", PStr src); ("alt", PStr (str_take 100 alt))].

Definition element_text (el : element) : pyval :=
  let txt := match el_text el with
             | Some t => t
             | None => el_str el
             end in
  PStr (str_take 200 txt).

(** Lines 96 to 140: the payload [data] built from a non-empty page. *)
Definition extract (pg : page) (selectors extract_type : pyval) : outcome dict :=
  (let data := [("status", PStr "success")] in
   if py_eq_str extract_type "full" then
     let data := dict_set data "title" (PStr "") in
     title_els <- page_css pg (PStr "title") ;;
     let data :=
       match title_els with
       | [] => data
       | e :: _ =>
           dict_set data "title"
             (PStr (match el_text e with Some t => t | None => el_str e end))
       end in
     text_length <-
       match page_get_all_text pg with
       | Some g => (s <- g ;; Normal (len_str s))
       | None => Normal (PInt 0)
       end ;;
     let data := dict_set data "text_length" text_length in
     html_length <-
       match page_body pg with
       | Some b => (s <- b ;; Normal (len_str s))
       | None => Normal (PInt 0)
       end ;;
     let data := dict_set data "html_length" html_length in
     links <- page_css pg (PStr "a[href]") ;;
     let data := dict_set data "link_count" (PInt (Z.of_nat (List.length links))) in
     imgs <- page_css pg (PStr "img") ;;
     let data := dict_set data "image_count" (PInt (Z.of_nat (List.length imgs))) in
     Normal data
   else if py_eq_str extract_type "links" then
     links <- page_css pg (PStr "a[href]") ;;
     let link_list := map link_record (slice_to links 50) in
     Normal (dict_set data "links" (PList link_list))
   else if py_eq_str extract_type "images" then
     imgs <- page_css pg (PStr "img") ;;
     let img_list := map image_record (slice_to imgs 50) in
     Normal (dict_set data "images" (PList img_list))
   else if py_eq_str extract_type "text" then
     text <-
       match page_get_all_text pg with
       | Some g => (s <- g ;; Normal (PStr (str_take 5000 s)))
       | None => Normal (PStr "")
       end ;;
     Normal (dict_set data "text" text)
   else if py_eq_str extract_type "css" && py_truthy selectors then
     elements <- page_css pg selectors ;;
     let el_list := map element_text (slice_to elements 30) in
     Normal (dict_set data "elements" (PList el_list))
   else Normal data)%outcome.

(** How the body of the [try] ends when it does not raise: it falls through
    to line 150, or leaves the function at the [return] of line 93. *)
Inductive flow : Type :=
| Fall (result : dict)
| Return (result : dict).

(** Lines 82 to 93: the page the chosen fetcher returns, [None] when the
    fetcher type is none of the three.  The import and the call may raise. *)
Definition fetch (t : nat) (fetcher_type url : pyval) : outcome (option page) :=
  (if py_eq_str fetcher_type "basic" then
     do import_Fetcher X t ;;
     pg <- Fetcher_get X t url ;;
     Normal (Some pg)
   else if py_eq_str fetcher_type "stealthy" then
     do import_StealthyFetcher X t ;;
     pg <- StealthyFetcher_fetch X t url ;;
     Normal (Some pg)
   else if py_eq_str fetcher_type "playwright" then
     do import_PlayWrightFetcher X t ;;
     pg <- PlayWrightFetcher_fetch X t url ;;
     Normal (Some pg)
   else Normal None)%outcome.

(** Lines 82 to 145, the body of the [try].  [result] is only assigned to at
    points after which the body cannot raise, so the handler of line 147 sees
    it as it was. *)
Definition scrape_try (t : nat) (url fetcher_type selectors extract_type : pyval)
    (result : dict) : outcome flow :=
  (fetched <- fetch t fetcher_type url ;;
   match fetched with
   | None =>
       Normal (Return (dict_set result "error"
                         (PStr ("Unknown fetcher type: " ++ py_format X fetcher_type))))
   | Some pg =>
       if page_bool pg then
         data <- extract pg selectors extract_type ;;
         let result := dict_set result "data" (PDict data) in
         let result := dict_set result "success" (PBool true) in
         Normal (Fall result)
       else
         Normal (Fall (dict_set result "error" (PStr "Page returned empty response")))
   end)%outcome.

(** A computation of the server: it reads and updates the process state and
    ends with a value or with an exception that nothing caught. *)
Definition M (A : Type) : Type := world -> world * outcome A.

Definition ret {A : Type} (a : A) : M A := fun w => (w, Normal a).

Definition throw {A : Type} (e : exn) : M A := fun w => (w, Raise e).

Definition bind {A B : Type} (m : M A) (k : A -> M B) : M B :=
  fun w =>
    match m w with
    | (w', Normal a) => k a w'
    | (w', Raise e) => (w', Raise e)
    end.

Definition lift {A : Type} (o : outcome A) : M A := fun w => (w, o).

(** [SCRAPE_HISTORY.append(result)] *)
Definition history_append (result : pyval) : M unit :=
  fun w => (mkWorld (SCRAPE_HISTORY w ++ [result]) (now w), Normal tt).

(** [SCRAPE_HISTORY.clear()] *)
Definition history_clear : M unit :=
  fun w => (mkWorld [] (now w), Normal tt).

Definition get_history : M (list pyval) :=
  fun w => (w, Normal (SCRAPE_HISTORY w)).

(** Reads the logical time and advances it. *)
Definition tick : M nat :=
  fun w => (mkWorld (SCRAPE_HISTORY w) (S (now w)), Normal (now w)).

Declare Scope server_scope.
Delimit Scope server_scope with server.
Notation "x <- m ;; k" := (bind m (fun x => k))
  (at level 100, m at next level, right associativity) : server_scope.
Notation "'do' m ;; k" := (bind m (fun _ => k))
  (at level 100, m at next level, right associativity) : server_scope.

(** Lines 69 to 77: the record every scrape starts from. *)
Definition new_result (t : nat) (url fetcher_type : pyval) : dict :=
  [("success", PBool false); ("url", url); ("fetcher", fetcher_type);
   ("timestamp", PStr (datetime_now_isoformat X t)); ("data", PNone);
   ("error", PNone); ("timing_ms", PInt 0)].

(** Lines 150 to 152. *)
Definition finish (t : nat) (result : dict) : M pyval :=
  (let result := dict_set result "timing_ms" (elapsed_ms X t) in
   do history_append (PDict result) ;;
   ret (PDict result))%server.

Definition run_scrape (url fetcher_type selectors extract_type : pyval) : M pyval :=
  (t <- tick ;;
   let result := new_result t url fetcher_type in
   match scrape_try t url fetcher_type selectors extract_type result with
   | Normal (Return result) => ret (PDict result)
   | Normal (Fall result) => finish t result
   | Raise e =>
       finish t (dict_set result "error"
                   (PStr (exn_class e ++ ": " ++ exn_msg e)))
   end)%server.

(** ** [get_bali_bliss_presets] *)

Definition preset (name description url selectors extract_type : string) : pyval :=
  PDict [("name", PStr name); ("description", PStr description);
         ("url", PStr url); ("selectors", PStr selectors);
         ("extract_type", PStr extract_type)].

Definition get_bali_bliss_presets : list pyval :=
  [ preset "Wedding Venue Search" "Scrape Bali wedding venue listings"
      "https://www.thebridestory.com/wedding-venues/in/bali" ".vendor-card" "css";
    preset "Vendor Pricing Check" "Check vendor pricing pages"
      "https://www.weddingku.com/vendor" ".price, .cost, .rate" "css";
    preset "Review Monitor" "Monitor reviews on Google Maps"
      "https://www.google.com/maps" ".review-text" "css";
    preset "Competitor Analysis" "Analyze competitor wedding sites"
      "" "h1, h2, .service, .package" "css";
    preset "Instagram Hashtag" "Track Bali wedding hashtags"
      "https://www.instagram.com/explore/tags/baliwedding/" "article img" "images" ].

(** ** [ScraplingHandler] *)

Inductive body : Type :=
| JsonBody (data : pyval)
| HtmlBody (html : string)
| NoBody.

Record response : Type := mkResponse {
  status : Z;
  headers : list (string * string);
  content : body
}.

Definition send_json (data : pyval) (status : Z) : response :=
  mkResponse status
    [("Content-Type", "application/json"); ("Access-Control-Allow-Origin", "*")]
    (JsonBody data).

Definition send_html (html : string) (status : Z) : response :=
  mkResponse status [("Content-Type", "text/html; charset=utf-8")] (HtmlBody html).

(** [params.get(k)] on the result of [parse_qs]. *)
Fixpoint params_get (params : list (string * list string)) (k : string)
    : option (list string) :=
  match params with
  | [] => None
  | (k', vs) :: params' => if String.eqb k' k then Some vs else params_get params' k
  end.

(** Line 248: [int(params.get("limit", [50])[0])] *)
Definition history_limit (params : list (string * list string)) : outcome Z :=
  match params_get params "limit" with
  | None => Normal 50
  | Some [] => Raise (IndexError "list index out of range")
  | Some (v :: _) => int_of_str v
  end.

Definition do_GET (self_path : string) : M response :=
  (parsed <- lift (urlparse X self_path) ;;
   let path := fst parsed in
   let params := parse_qs X (snd parsed) in
   if String.eqb path "/" || String.eqb path "/index.html" then
     ret (send_html (UI_HTML X) 200)
   else if String.eqb path "/api/status" then
     fun w =>
       let scrapling_status := check_scrapling (now w) in
       ret (send_json
              (PDict [("server", PStr "running"); ("port", PInt PORT);
                      ("uptime_seconds", uptime X (now w));
                      ("scrapling", PDict scrapling_status);
                      ("history_count",
                        PInt (Z.of_nat (List.length (SCRAPE_HISTORY w))));
                      ("python_version", PStr (python_version X))]) 200) w
   else if String.eqb path "/api/history" then
     limit <- lift (history_limit params) ;;
     history <- get_history ;;
     ret (send_json
            (PDict [("history", PList (slice_from history (- limit)));
                    ("total", PInt (Z.of_nat (List.length history)))]) 200)
   else if String.eqb path "/api/presets" then
     ret (send_json (PDict [("presets", PList get_bali_bliss_presets)]) 200)
   else if String.eqb path "/api/clear-history" then
     do history_clear ;;
     ret (send_json (PDict [("success", PBool true);
                            ("message", PStr "History cleared")]) 200)
   else
     ret (send_json (PDict [("error", PStr "Not found")]) 404))%server.

(** A POST request as the handler reads it: the request target, the
    [Content-Length] header when there is one, and the bytes that follow the
    headers. *)
Record post_request : Type := mkPost {
  post_path : string;
  post_content_length : option string;
  post_rfile : string
}.

(** [data.get]: only a [dict] has the method. *)
Definition as_dict (data : pyval) : outcome dict :=
  match data with
  | PDict d => Normal d
  | _ => Raise (no_attribute data "get")
  end.

(** [url.strip()]: only a [str] has the method. *)
Definition py_strip (url : pyval) : outcome pyval :=
  match url with
  | PStr s => Normal (PStr (str_strip s))
  | _ => Raise (no_attribute url "strip")
  end.

(** The items the loop of line 294 runs over, [urls[:10]]: a prefix of a
    list, the characters of a prefix of a [str]; other values cannot be
    sliced (a [dict] raises [KeyError] instead on recent interpreters). *)
Definition first_ten (urls : pyval) : outcome (list pyval) :=
  match urls with
  | PList l => Normal (slice_to l 10)
  | PStr s =>
      Normal (map (fun c => PStr (String c EmptyString))
                (list_ascii_of_string (str_take 10 s)))
  | PDict _ => Raise (TypeError "unhashable type: 'slice'")
  | _ => Raise (TypeError ("'" ++ py_type_name urls ++ "' object is not subscriptable"))
  end.

(** Lines 294 to 296, [results] being the list built so far. *)
Fixpoint batch_loop (urls : list pyval) (fetcher extract_type : pyval)
    (results : list pyval) : M (list pyval) :=
  match urls with
  | [] => ret results
  | url :: rest =>
      (stripped <- lift (py_strip url) ;;
       r <- run_scrape stripped fetcher PNone extract_type ;;
       batch_loop rest fetcher extract_type (results ++ [r]))%server
  end.

(** Lines 266 and 267. *)
Definition read_body (req : post_request) : outcome string :=
  (content_length <-
     match post_content_length req with
     | Some s => int_of_str s
     | None => Normal 0
     end ;;
   if 0 <? content_length
   then bytes_decode X (str_take (Z.to_nat content_length) (post_rfile req))
   else Normal "{}")%outcome.

Definition do_POST (req : post_request) : M response :=
  (body <- lift (read_body req) ;;
   match json_loads X body with
   | Raise e =>
       if String.eqb (exn_class e) "JSONDecodeError"
       then ret (send_json (PDict [("error", PStr "Invalid JSON")]) 400)
       else throw e
   | Normal data =>
       parsed <- lift (urlparse X (post_path req)) ;;
       let path := fst parsed in
       if String.eqb path "/api/scrape" then
         d <- lift (as_dict data) ;;
         let url := dict_get_default d "url" (PStr "") in
         if negb (py_truthy url) then
           ret (send_json (PDict [("error", PStr "URL is required")]) 400)
         else
           let fetcher := dict_get_default d "fetcher" (PStr "basic") in
           let selectors := dict_get_default d "selectors" (PStr "") in
           let extract_type := dict_get_default d "extract_type" (PStr "full") in
           result <- run_scrape url fetcher selectors extract_type ;;
           ret (send_json result 200)
       else if String.eqb path "/api/batch-scrape" then
         d <- lift (as_dict data) ;;
         let urls := dict_get_default d "urls" (PList []) in
         let fetcher := dict_get_default d "fetcher" (PStr "basic") in
         let extract_type := dict_get_default d "extract_type" (PStr "full") in
         items <- lift (first_ten urls) ;;
         results <- batch_loop items fetcher extract_type [] ;;
         ret (send_json (PDict [("results", PList results)]) 200)
       else
         ret (send_json (PDict [("error", PStr "Not found")]) 404)
   end)%server.

Definition do_OPTIONS : response :=
  mkResponse 200
    [("Access-Control-Allow-Origin", "*");
     ("Access-Control-Allow-Methods", "GET, POST, OPTIONS");
     ("Access-Control-Allow-Headers", "Content-Type")]
    NoBody.

End Server.

(** ** A concrete site, for running the model

    An instance of [Externals] small enough to evaluate: request targets of
    the form [path?k=v&k=v], bodies that are ASCII text, a JSON reader that
    knows the bodies listed in [known_bodies], and a library whose basic
    fetcher reaches two hosts while the browser-based fetchers are not
    installed. *)
Module Sample.

Local Open Scope string_scope.

Definition dq : string := String (ascii_of_nat 34) EmptyString.

Definition json_int (z : Z) : string :=
  match z with
  | Z0 => "0"
  | Zpos p => DecimalString.NilZero.string_of_uint (Pos.to_uint p)
  | Zneg p => "-" ++ DecimalString.NilZero.string_of_uint (Pos.to_uint p)
  end.

(** The text [json.dumps] writes, for values without floats. *)
Fixpoint json_text (v : pyval) : string :=
  match v with
  | PNone => "null"
  | PBool true => "true"
  | PBool false => "false"
  | PInt z => json_int z
  | PFloat _ => "0.0"
  | PStr s => dq ++ s ++ dq
  | PList l =>
      "[" ++ (fix items (l : list pyval) : string :=
                match l with
                | [] => ""
                | [x] => json_text x
                | x :: l' => json_text x ++ ", " ++ items l'
                end) l ++ "]"
  | PDict d =>
      "{" ++ (fix items (d : list (string * pyval)) : string :=
                match d with
                | [] => ""
                | [(k, x)] => dq ++ k ++ dq ++ ": " ++ json_text x
                | (k, x) :: d' => dq ++ k ++ dq ++ ": " ++ json_text x ++ ", " ++ items d'
                end) d ++ "}"
  end.

Definition twelve_urls : list string :=
  map (fun i => if Nat.even i then "  http://example.com "
                else "http://down.example/" ++ json_int (Z.of_nat i))
      (seq 0 12).

Definition known_bodies : list pyval :=
  [ PDict [];
    PDict [("url", PStr "")];
    PDict [("url", PStr "http://example.com"); ("fetcher", PStr "curl")];
    PDict [("url", PStr "http://down.example")];
    PDict [("urls", PList [PStr "http://example.com"; PInt 5])];
    PDict [("urls", PList (map PStr twelve_urls))];
    PList [] ].

Definition sample_json_loads (s : string) : outcome pyval :=
  match find (fun v => String.eqb (json_text v) s) known_bodies with
  | Some v => Normal v
  | None => Raise (mkExn "JSONDecodeError" "Expecting value")
  end.

(** Splits at the first occurrence of [sep]. *)
Fixpoint split_once (sep : ascii) (s : string) : string * string :=
  match s with
  | EmptyString => (EmptyString, EmptyString)
  | String c s' =>
      if Ascii.eqb c sep then (EmptyString, s')
      else let (a, b) := split_once sep s' in (String c a, b)
  end.

Fixpoint split_all (sep : ascii) (s : string) (cur : string) : list string :=
  match s with
  | EmptyString => [cur]
  | String c s' =>
      if Ascii.eqb c sep then cur :: split_all sep s' EmptyString
      else split_all sep s' (cur ++ String c EmptyString)
  end.

Fixpoint add_param (params : list (string * list string)) (k v : string)
    : list (string * list string) :=
  match params with
  | [] => [(k, [v])]
  | (k', vs) :: params' =>
      if String.eqb k' k then (k', (vs ++ [v])%list) :: params'
      else (k', vs) :: add_param params' k v
  end.

Definition sample_parse_qs (query : string) : list (string * list string) :=
  fold_left
    (fun params field =>
       let (k, v) := split_once "=" field in
       if String.eqb v "" then params else add_param params k v)
    (split_all "&" query EmptyString) [].

Definition sample_urlparse (target : string) : outcome (string * string) :=
  Normal (split_once "?" target).

Definition filler (c : ascii) (n : nat) : string := string_of_list_ascii (repeat c n).

Definition sixty_links : list element :=
  map (fun i => mkElement (Some (filler "x" 150)) "<a>"
                  (Some [("href", "/page/" ++ json_int (Z.of_nat i))]))
      (seq 0 60).

Definition fifty_five_images : list element :=
  map (fun i => mkElement None "<img>"
                  (Some [("src", "/img/" ++ json_int (Z.of_nat i));
                         ("alt", filler "a" 120)]))
      (seq 0 55).

Definition forty_prices : list element :=
  map (fun _ => mkElement (Some (filler "9" 250)) "<span>" None) (seq 0 40).

Definition shop_page : page :=
  mkPage true
    (fun sel =>
       match sel with
       | PStr s =>
           if String.eqb s "a[href]" then Normal sixty_links
           else if String.eqb s "img" then Normal fifty_five_images
           else if String.eqb s "title" then Normal [mkElement (Some "Shop") "<title>" None]
           else if String.eqb s ".price" then Normal forty_prices
           else if String.eqb s "a[" then Raise (mkExn "SelectorSyntaxError" "Expected ']'")
           else Normal []
       | _ => Raise (TypeError "expected string")
       end)
    (Some (Normal (filler "t" 6000)))
    (Some (Normal "<html></html>")).

Definition blank_page : page :=
  mkPage false (fun _ => Normal []) None None.

Definition not_installed {A : Type} (name : string) : outcome A :=
  Raise (mkExn "ImportError" ("cannot import name " ++ name)).

Definition site : Externals :=
  mkExternals
    (fun _ => Normal tt)
    (fun _ => not_installed "StealthyFetcher")
    (fun _ => not_installed "PlayWrightFetcher")
    (fun _ => not_installed "ScraplingMCPServer")
    (fun _ => Normal None)
    (fun _ url =>
       if py_eq_str url "http://example.com" then Normal shop_page
       else if py_eq_str url "http://empty.example" then Normal blank_page
       else Raise (mkExn "ConnectionError" "cannot reach host"))
    (fun _ _ => not_installed "StealthyFetcher")
    (fun _ _ => not_installed "PlayWrightFetcher")
    (fun t => "2024-01-01T00:00:0" ++ json_int (Z.of_nat t))
    (fun _ => PInt 12)
    (fun _ => PInt 0)
    "3.11.4"
    sample_urlparse
    sample_parse_qs
    (fun bytes => Normal bytes)
    sample_json_loads
    json_text
    "<!DOCTYPE html>".

Definition fresh : world := mkWorld [] 0.

Definition post (target : string) (data : pyval) : post_request :=
  let text := json_text data in
  mkPost target (Some (json_int (Z.of_nat (String.length text)))) text.

(** The state after a batch over [twelve_urls]. *)
Definition busy : world :=
  Eval vm_compute in
    fst (do_POST site (post "/api/batch-scrape"
                         (PDict [("urls", PList (map PStr twelve_urls))])) fresh).

End Sample.

(** * The vocabulary of the properties *)

(** The [try] ends in one of four ways. *)
Inductive try_end (X : Externals) (t : nat) (url ft sel et : pyval) : outcome flow -> Prop :=
| end_unknown :
    fetch X t ft url = Normal None ->
    try_end X t url ft sel et
      (Normal (Return (dict_set (new_result X t url ft) "error"
                         (PStr ("Unknown fetcher type: " ++ py_format X ft)))))
| end_empty pg :
    fetch X t ft url = Normal (Some pg) ->
    page_bool pg = false ->
    try_end X t url ft sel et
      (Normal (Fall (dict_set (new_result X t url ft) "error"
                       (PStr "Page returned empty response"))))
| end_data pg data :
    fetch X t ft url = Normal (Some pg) ->
    page_bool pg = true ->
    extract pg sel et = Normal data ->
    try_end X t url ft sel et
      (Normal (Fall (dict_set (dict_set (new_result X t url ft) "data" (PDict data))
                       "success" (PBool true))))
| end_raise e :
    try_end X t url ft sel et (Raise e).

Definition link_capped (v : pyval) : Prop :=
  exists href txt : string,
    v = PDict [("href", PStr href); ("text", PStr txt)]
    /\ (String.length txt <= 100)%nat.





(** A result that reports a failure: [success] is false and [error] holds a
    string. *)
Definition reports_failure (r : pyval) : Prop :=
  exists (d : dict) (msg : string),
    r = PDict d
    /\ dict_get "success" d = Some (PBool false)
    /\ dict_get "error" d = Some (PStr msg).

Definition reports_success (r : pyval) : Prop :=
  exists d data : dict,
    r = PDict d
    /\ dict_get "success" d = Some (PBool true)
    /\ dict_get "data" d = Some (PDict data)
    /\ dict_get "error" d = Some PNone.

(** The URLs scraped one after another: each scrape starts from the state the
    one before it left, and the results come in the order of the URLs. *)
Inductive scraped_in_turn (X : Externals) (ft et : pyval)
    : world -> list string -> list pyval -> world -> Prop :=
| turn_done (w : world) : scraped_in_turn X ft et w [] [] w
| turn_next (w w1 w2 : world) (u : string) (us : list string)
    (r : pyval) (rs : list pyval) :
    run_scrape X (PStr (str_strip u)) ft PNone et w = (w1, Normal r) ->
    (exists d, r = PDict d /\ dict_get "url" d = Some (PStr (str_strip u))) ->
    scraped_in_turn X ft et w1 us rs w2 ->
    scraped_in_turn X ft et w (u :: us) (r :: rs) w2.

(** ** More requests for the sample site *)

Module Demo.

Local Open Scope string_scope.

Definition two_urls : list string := ["http://example.com"; " http://down.example "].

Definition more_bodies : list pyval :=
  [ PDict [("url", PStr "http://example.com")];
    PDict [("url", PStr "http://example.com"); ("fetcher", PStr "stealthy")];
    PDict [("url", PStr "http://example.com"); ("selectors", PStr "a[");
           ("extract_type", PStr "css")];
    PDict [("urls", PList (map PStr two_urls)); ("fetcher", PStr "curl")];
    PDict [("urls", PList (map PStr two_urls)); ("selectors", PStr ".price");
           ("extract_type", PStr "css")];
    PDict [("url", PStr " http://example.com ")];
    PDict [("urls", PStr "ab")];
    PDict [("urls", PNone)];
    PInt 7 ].

(** The sample site, its JSON reader knowing [more_bodies] as well. *)
Definition site : Externals :=
  let S := Sample.site in
  mkExternals
    (import_Fetcher S) (import_StealthyFetcher S) (import_PlayWrightFetcher S)
    (import_ScraplingMCPServer S) (import_scrapling S)
    (Fetcher_get S) (StealthyFetcher_fetch S) (PlayWrightFetcher_fetch S)
    (datetime_now_isoformat S) (elapsed_ms S) (uptime S) (python_version S)
    (urlparse S) (parse_qs S) (bytes_decode S)
    (fun s =>
       match find (fun v => String.eqb (Sample.json_text v) s)
               (more_bodies ++ Sample.known_bodies)%list with
       | Some v => Normal v
       | None => Raise (mkExn "JSONDecodeError" "Expecting value")
       end)
    (py_repr S) (UI_HTML S).

End Demo.

(** ** The sample site with a stricter standard library

    Three inputs on which the parsers of the standard library raise: the
    target ["//["] ([urlparse] reports an invalid IPv6 URL), a body that
    starts with the byte 255 (not UTF-8), and a body of 2000 opening
    brackets ([json.loads] exceeds the recursion limit). *)
Module Edge.

Local Open Scope string_scope.

Definition deep_body : string := Sample.filler "[" 2000.

Definition starts_with (p s : string) : bool := String.eqb (str_take (String.length p) s) p.

Definition site : Externals :=
  let S := Sample.site in
  mkExternals
    (import_Fetcher S) (import_StealthyFetcher S) (import_PlayWrightFetcher S)
    (import_ScraplingMCPServer S) (import_scrapling S)
    (Fetcher_get S) (StealthyFetcher_fetch S) (PlayWrightFetcher_fetch S)
    (datetime_now_isoformat S) (elapsed_ms S) (uptime S) (python_version S)
    (fun target =>
       if starts_with "//[" target
       then Raise (ValueError "Invalid IPv6 URL")
       else urlparse S target)
    (parse_qs S)
    (fun bytes =>
       if starts_with (String (ascii_of_nat 255) EmptyString) bytes
       then Raise (mkExn "UnicodeDecodeError"
                     "'utf-8' codec can't decode byte 0xff in position 0: invalid start byte")
       else bytes_decode S bytes)
    (fun s =>
       if String.eqb s deep_body
       then Raise (mkExn "RecursionError"
                     "maximum recursion depth exceeded while decoding a JSON array")
       else json_loads S s)
    (py_repr S) (UI_HTML S).

End Edge.

(** ** More vocabulary *)

(** The text the code takes for an element: [el.text], or [str(el)] when the
    element has no such attribute. *)
Definition element_label (el : element) : string :=
  match el_text el with
  | Some t => t
  | None => el_str el
  end.



(** A character that no integer literal holds. *)
Definition not_in_int_literal (c : ascii) : bool :=
  negb (is_digit c || py_isspace c || Ascii.eqb c "_" || Ascii.eqb c "+"
        || Ascii.eqb c "-").

Definition known_fetcher (name : string) : Prop :=
  name = "basic" \/ name = "stealthy" \/ name = "playwright".

Definition result_keys : list string :=
  ["success"; "url"; "fetcher"; "timestamp"; "data"; "error"; "timing_ms"].

(** The record of a scrape that gave a payload. *)
Definition success_record (r data : dict) : Prop :=
  dict_get "success" r = Some (PBool true)
  /\ dict_get "data" r = Some (PDict data)
  /\ dict_get "error" r = Some PNone.

(** The record of a scrape that failed with the message [msg]. *)
Definition failure_record (r : dict) (msg : string) : Prop :=
  dict_get "success" r = Some (PBool false)
  /\ dict_get "data" r = Some PNone
  /\ dict_get "error" r = Some (PStr msg).

(** [w'] is [w] with the records [added] appended to the history, after
    [n] scrapes. *)
Definition recorded (w : world) (added : list pyval) (n : nat) (w' : world) : Prop :=
  SCRAPE_HISTORY w' = SCRAPE_HISTORY w ++ added /\ now w' = (now w + n)%nat.

(** The key of [check_scrapling]'s status that tells whether the fetcher of
    this name can be imported, and the import [run_scrape] performs for it. *)
Definition fetcher_flag (name : string) : string :=
  if String.eqb name "basic" then "fetcher"
  else if String.eqb name "stealthy" then "stealthy_fetcher"
  else "playwright_fetcher".

Definition fetcher_import (X : Externals) (t : nat) (name : string) : outcome unit :=
  if String.eqb name "basic" then import_Fetcher X t
  else if String.eqb name "stealthy" then import_StealthyFetcher X t
  else import_PlayWrightFetcher X t.

Definition status_keys : list string :=
  ["fetcher"; "stealthy_fetcher"; "playwright_fetcher"; "mcp_server"; "version"].

Definition json_headers : list (string * string) :=
  [("Content-Type", "application/json"); ("Access-Control-Allow-Origin", "*")].

(** A JSON answer: an object, with the JSON content type and the
    cross-origin header. *)
Definition json_answer (resp : response) : Prop :=
  headers resp = json_headers /\ exists v : dict, content resp = JsonBody (PDict v).







(** * Properties *)

(** ** Dictionaries and strings *)

Lemma dict_get_set_same (d : dict) (k : string) (v : pyval) :
  dict_get k (dict_set d k v) = Some v.
Proof.
  induction d as [|[k' v'] d IH]; simpl.
  - now rewrite String.eqb_refl.
  - destruct (String.eqb k' k) eqn:E; simpl; rewrite E; auto.
Qed.

Lemma dict_get_set_other (d : dict) (k k' : string) (v : pyval) :
  k <> k' -> dict_get k (dict_set d k' v) = dict_get k d.
Proof.
  intros Hne. induction d as [|[k0 v0] d IH]; simpl.
  - destruct (String.eqb k' k) eqn:E; auto.
    apply String.eqb_eq in E. congruence.
  - destruct (String.eqb k0 k') eqn:E; simpl.
    + apply String.eqb_eq in E. subst k0.
      destruct (String.eqb k' k) eqn:E'; auto.
      apply String.eqb_eq in E'. congruence.
    + destruct (String.eqb k0 k); auto.
Qed.

Lemma str_take_length (n : nat) (s : string) :
  String.length (str_take n s) = Nat.min n (String.length s).
Proof.
  revert s. induction n as [|n IH]; intros [|c s]; simpl; auto.
Qed.

Lemma str_take_le (n : nat) (s : string) :
  (String.length (str_take n s) <= n)%nat.
Proof. rewrite str_take_length. lia. Qed.

Lemma py_eq_str_true (v : pyval) (lit : string) :
  py_eq_str v lit = true <-> v = PStr lit.
Proof.
  destruct v; simpl; split; try discriminate.
  - intros H. apply String.eqb_eq in H. now subst.
  - intros H. injection H as ->. apply String.eqb_refl.
Qed.

Lemma py_eq_str_false (name lit : string) :
  name <> lit -> py_eq_str (PStr name) lit = false.
Proof. intros H. simpl. now apply String.eqb_neq. Qed.

(** ** The scrape operation *)

Section ScrapeFacts.

Variable X : Externals.

(** [run_scrape] unfolded along the three ways its [try] can end. *)
Lemma run_scrape_cases (url ft sel et : pyval) (w : world) :
  let t := now w in
  let result := new_result X t url ft in
  run_scrape X url ft sel et w =
  match scrape_try X t url ft sel et result with
  | Normal (Return r) => (mkWorld (SCRAPE_HISTORY w) (S t), Normal (PDict r))
  | Normal (Fall r) =>
      let r' := dict_set r "timing_ms" (elapsed_ms X t) in
      (mkWorld (SCRAPE_HISTORY w ++ [PDict r']) (S t), Normal (PDict r'))
  | Raise e =>
      let r' := dict_set
                  (dict_set result "error" (PStr (exn_class e ++ ": " ++ exn_msg e)))
                  "timing_ms" (elapsed_ms X t) in
      (mkWorld (SCRAPE_HISTORY w ++ [PDict r']) (S t), Normal (PDict r'))
  end.
Proof.
  unfold run_scrape, bind, tick. simpl.
  destruct (scrape_try X (now w) url ft sel et (new_result X (now w) url ft))
    as [[r|r]|e]; reflexivity.
Qed.

Lemma scrape_try_end (t : nat) (url ft sel et : pyval) :
  try_end X t url ft sel et (scrape_try X t url ft sel et (new_result X t url ft)).
Proof.
  unfold scrape_try.
  destruct (fetch X t ft url) as [[pg|]|e] eqn:Hf; simpl.
  - destruct (page_bool pg) eqn:Hb.
    + destruct (extract pg sel et) as [data|e] eqn:He; simpl.
      * eapply end_data; eauto.
      * apply end_raise.
    + eapply end_empty; eauto.
  - now apply end_unknown.
  - apply end_raise.
Qed.

Lemma fetch_unknown (t : nat) (ft url : pyval) :
  py_eq_str ft "basic" = false ->
  py_eq_str ft "stealthy" = false ->
  py_eq_str ft "playwright" = false ->
  fetch X t ft url = Normal None.
Proof. intros H1 H2 H3. unfold fetch. now rewrite H1, H2, H3. Qed.

Lemma fetch_known (t : nat) (ft url : pyval) (pg : page) :
  fetch X t ft url = Normal (Some pg) ->
  ft = PStr "basic" \/ ft = PStr "stealthy" \/ ft = PStr "playwright".
Proof.
  unfold fetch.
  destruct (py_eq_str ft "basic") eqn:H1.
  { apply py_eq_str_true in H1. auto. }
  destruct (py_eq_str ft "stealthy") eqn:H2.
  { apply py_eq_str_true in H2. auto. }
  destruct (py_eq_str ft "playwright") eqn:H3.
  { apply py_eq_str_true in H3. auto. }
  discriminate.
Qed.

(** With a fetcher type that is none of the three, the scrape leaves at the
    [return] of line 93: the history is as it was. *)
Lemma run_scrape_unknown (url ft sel et : pyval) (w : world) :
  fetch X (now w) ft url = Normal None ->
  run_scrape X url ft sel et w =
  (mkWorld (SCRAPE_HISTORY w) (S (now w)),
   Normal (PDict (dict_set (new_result X (now w) url ft) "error"
                    (PStr ("Unknown fetcher type: " ++ py_format X ft))))).
Proof.
  intros Hf. rewrite run_scrape_cases. simpl.
  unfold scrape_try. now rewrite Hf.
Qed.

(** Every other scrape, failed or not, is appended to the history. *)
Lemma run_scrape_recorded (url ft sel et : pyval) (w : world) :
  fetch X (now w) ft url <> Normal None ->
  exists r : pyval,
    run_scrape X url ft sel et w =
    (mkWorld (SCRAPE_HISTORY w ++ [r]) (S (now w)), Normal r).
Proof.
  intros Hf. rewrite run_scrape_cases.
  destruct (scrape_try_end (now w) url ft sel et) as [Hu|pg H1 Hb|pg data H1 Hb He|e];
    simpl; try (eexists; reflexivity).
  contradiction.
Qed.

(** No scrape removes an entry of the history. *)
Lemma run_scrape_keeps_history (url ft sel et : pyval) (w : world) :
  exists added : list pyval,
    SCRAPE_HISTORY (fst (run_scrape X url ft sel et w)) = SCRAPE_HISTORY w ++ added.
Proof.
  rewrite run_scrape_cases.
  destruct (scrape_try X (now w) url ft sel et (new_result X (now w) url ft))
    as [[r|r]|e]; simpl.
  - eexists; reflexivity.
  - exists []. now rewrite app_nil_r.
  - eexists; reflexivity.
Qed.

End ScrapeFacts.

(** C1: for every input, [run_scrape] returns a result record and does not
    raise; when fetching or extraction raised, the result has
    [success = False] and its [error] is the string made of the class and the
    message of the exception. *)
Theorem run_scrape_never_raises (X : Externals) (url ft sel et : pyval) (w : world) :
  exists r : dict,
    snd (run_scrape X url ft sel et w) = Normal (PDict r)
    /\ dict_get "url" r = Some url
    /\ forall e : exn,
         scrape_try X (now w) url ft sel et (new_result X (now w) url ft) = Raise e ->
         dict_get "success" r = Some (PBool false)
         /\ dict_get "error" r = Some (PStr (exn_class e ++ ": " ++ exn_msg e)).
Proof.
  rewrite run_scrape_cases.
  destruct (scrape_try_end X (now w) url ft sel et) as [Hf|pg Hf Hb|pg data Hf Hb He|e];
    simpl; eexists; (split; [reflexivity|]); (split; [reflexivity|]);
    intros e' He'; try discriminate.
  injection He' as <-. split; reflexivity.
Qed.

(** A fetch that raises: the host cannot be reached, and the result says so. *)
Lemma run_scrape_never_raises_witness :
  exists r : dict,
    snd (run_scrape Sample.site (PStr "http://down.example") (PStr "basic")
           PNone (PStr "full") Sample.fresh) = Normal (PDict r)
    /\ dict_get "success" r = Some (PBool false)
    /\ dict_get "error" r = Some (PStr "ConnectionError: cannot reach host").
Proof.
  destruct (run_scrape_never_raises Sample.site (PStr "http://down.example")
              (PStr "basic") PNone (PStr "full") Sample.fresh)
    as (r & Hr & _ & Hexn).
  exists r. split; [exact Hr|].
  apply (Hexn (mkExn "ConnectionError" "cannot reach host")).
  reflexivity.
Defined.

(** C6: a fetcher name other than "basic", "stealthy" and "playwright" gives
    a result with [success = False] and an error string that names it;
    nothing is raised. *)
Theorem unknown_fetcher_is_reported (X : Externals) (url sel et : pyval)
    (name : string) (w : world) :
  name <> "basic" -> name <> "stealthy" -> name <> "playwright" ->
  exists r : dict,
    snd (run_scrape X url (PStr name) sel et w) = Normal (PDict r)
    /\ dict_get "success" r = Some (PBool false)
    /\ dict_get "error" r = Some (PStr ("Unknown fetcher type: " ++ name))
    /\ dict_get "data" r = Some PNone.
Proof.
  intros H1 H2 H3.
  rewrite run_scrape_unknown
    by (apply fetch_unknown; now apply py_eq_str_false).
  simpl. eexists. repeat split.
Qed.

Lemma unknown_fetcher_is_reported_witness :
  exists r : dict,
    snd (run_scrape Sample.site (PStr "http://example.com") (PStr "curl")
           PNone (PStr "full") Sample.fresh) = Normal (PDict r)
    /\ dict_get "success" r = Some (PBool false)
    /\ dict_get "error" r = Some (PStr "Unknown fetcher type: curl")
    /\ dict_get "data" r = Some PNone.
Proof.
  apply (unknown_fetcher_is_reported Sample.site (PStr "http://example.com")
           PNone (PStr "full") (name := "curl") Sample.fresh);
    discriminate.
Defined.

(** C2: the result for an unknown fetcher type is returned without being
    appended to [SCRAPE_HISTORY] (the history stays empty here), whereas a
    fetch that fails on the same state is appended. *)
Theorem unknown_fetcher_result_not_recorded :
  run_scrape Sample.site (PStr "http://example.com") (PStr "curl") PNone
    (PStr "full") Sample.fresh
  = (mkWorld [] 1,
     Normal (PDict [("success", PBool false); ("url", PStr "http://example.com");
                    ("fetcher", PStr "curl");
                    ("timestamp", PStr "2024-01-01T00:00:00"); ("data", PNone);
                    ("error", PStr "Unknown fetcher type: curl");
                    ("timing_ms", PInt 0)]))
  /\ SCRAPE_HISTORY
       (fst (run_scrape Sample.site (PStr "http://down.example") (PStr "basic")
               PNone (PStr "full") Sample.fresh))
     = [PDict [("success", PBool false); ("url", PStr "http://down.example");
               ("fetcher", PStr "basic");
               ("timestamp", PStr "2024-01-01T00:00:00"); ("data", PNone);
               ("error", PStr "ConnectionError: cannot reach host");
               ("timing_ms", PInt 12)]].
Proof. split; reflexivity. Qed.

(** C9: an extraction mode that is none of the five (or "css" with empty
    selectors) is not rejected: with a non-empty page the scrape succeeds and
    its payload holds the status field alone. *)
Theorem extract_type_is_not_validated (X : Externals) (url ft sel et : pyval)
    (w : world) (pg : page) :
  fetch X (now w) ft url = Normal (Some pg) ->
  page_bool pg = true ->
  py_eq_str et "full" = false ->
  py_eq_str et "links" = false ->
  py_eq_str et "images" = false ->
  py_eq_str et "text" = false ->
  py_eq_str et "css" && py_truthy sel = false ->
  exists r : dict,
    snd (run_scrape X url ft sel et w) = Normal (PDict r)
    /\ dict_get "success" r = Some (PBool true)
    /\ dict_get "data" r = Some (PDict [("status", PStr "success")])
    /\ dict_get "error" r = Some PNone.
Proof.
  intros Hf Hb H1 H2 H3 H4 H5.
  rewrite run_scrape_cases. simpl.
  unfold scrape_try. rewrite Hf. simpl. rewrite Hb.
  unfold extract. rewrite H1, H2, H3, H4, H5. simpl.
  eexists. repeat split.
Qed.

Lemma extract_type_is_not_validated_witness :
  (exists r : dict,
     snd (run_scrape Sample.site (PStr "http://example.com") (PStr "basic")
            (PStr ".price") (PStr "pdf") Sample.fresh) = Normal (PDict r)
     /\ dict_get "success" r = Some (PBool true)
     /\ dict_get "data" r = Some (PDict [("status", PStr "success")])
     /\ dict_get "error" r = Some PNone)
  /\ (exists r : dict,
        snd (run_scrape Sample.site (PStr "http://example.com") (PStr "basic")
               PNone (PStr "css") Sample.fresh) = Normal (PDict r)
        /\ dict_get "success" r = Some (PBool true)
        /\ dict_get "data" r = Some (PDict [("status", PStr "success")])
        /\ dict_get "error" r = Some PNone).
Proof.
  split.
  - apply (extract_type_is_not_validated Sample.site (PStr "http://example.com")
             (PStr "basic") (PStr ".price") (PStr "pdf") Sample.fresh
             (pg := Sample.shop_page)); reflexivity.
  - apply (extract_type_is_not_validated Sample.site (PStr "http://example.com")
             (PStr "basic") PNone (PStr "css") Sample.fresh
             (pg := Sample.shop_page)); reflexivity.
Defined.

(** ** The limits of the extraction step *)

Arguments slice_to : simpl never.
Arguments str_take : simpl never.

Lemma link_record_capped (a : element) : link_capped (link_record a).
Proof. unfold link_capped, link_record. do 2 eexists. split; [reflexivity|apply str_take_le]. Qed.



Lemma capped_prefix {A : Type} (f : A -> pyval) (P : pyval -> Prop) (n : nat) (l : list A) :
  (forall a, P (f a)) ->
  (List.length (map f (slice_to l n)) <= n)%nat /\ Forall P (map f (slice_to l n)).
Proof.
  intros Hf. unfold slice_to. split.
  - rewrite length_map. apply firstn_le_length.
  - apply Forall_forall. intros v Hv. apply in_map_iff in Hv.
    destruct Hv as (a & <- & _). apply Hf.
Qed.

Lemma extract_links (pg : page) (sel : pyval) (data : dict) :
  extract pg sel (PStr "links") = Normal data ->
  exists ls, dict_get "links" data = Some (PList ls)
             /\ (List.length ls <= 50)%nat /\ Forall link_capped ls.
Proof.
  unfold extract. simpl.
  destruct (page_css pg (PStr "a[href]")) as [links|e]; simpl; [|discriminate].
  intros H. injection H as <-. simpl.
  eexists. split; [reflexivity|]. apply capped_prefix, link_record_capped.
Qed.


Lemma extract_text (pg : page) (sel : pyval) (data : dict) :
  extract pg sel (PStr "text") = Normal data ->
  exists s, dict_get "text" data = Some (PStr s) /\ (String.length s <= 5000)%nat.
Proof.
  unfold extract. simpl.
  destruct (page_get_all_text pg) as [[s|e]|]; simpl; try discriminate;
    intros H; injection H as <-; simpl; eexists; (split; [reflexivity|]).
  - apply str_take_le.
  - simpl. lia.
Qed.


(** The payload of a result is what [extract] built from the fetched page. *)
Lemma run_scrape_data (X : Externals) (url ft sel et : pyval) (w : world)
    (r data : dict) :
  snd (run_scrape X url ft sel et w) = Normal (PDict r) ->
  dict_get "data" r = Some (PDict data) ->
  exists pg, page_bool pg = true /\ extract pg sel et = Normal data.
Proof.
  rewrite run_scrape_cases.
  destruct (scrape_try_end X (now w) url ft sel et) as [Hu|pg H1 Hb|pg data' H1 Hb He|e];
    simpl; intros Hr Hd; injection Hr as <-; simpl in Hd; try discriminate.
  injection Hd as <-. eauto.
Qed.

(** ** The handlers *)

Section HandlerFacts.

Variable X : Externals.

Lemma run_scrape_total (url ft sel et : pyval) (w : world) :
  exists (w' : world) (r : dict),
    run_scrape X url ft sel et w = (w', Normal (PDict r))
    /\ dict_get "url" r = Some url
    /\ (reports_success (PDict r) \/ reports_failure (PDict r))
    /\ (fetch X (now w) ft url = Normal None -> reports_failure (PDict r))
    /\ (forall e,
          scrape_try X (now w) url ft sel et (new_result X (now w) url ft) = Raise e ->
          reports_failure (PDict r)).
Proof.
  rewrite run_scrape_cases.
  destruct (scrape_try_end X (now w) url ft sel et) as [Hu|pg H1 Hb|pg data H1 Hb He|e];
    simpl; do 2 eexists; (split; [reflexivity|]); (split; [reflexivity|]).
  - assert (F : reports_failure
                  (PDict (dict_set (new_result X (now w) url ft) "error"
                            (PStr ("Unknown fetcher type: " ++ py_format X ft)))))
      by (do 2 eexists; repeat split).
    repeat split; auto.
  - match goal with |- (_ \/ reports_failure ?r) /\ _ =>
      assert (F : reports_failure r) by (do 2 eexists; repeat split) end.
    repeat split; auto.
  - split; [left; do 2 eexists; repeat split|].
    split; [congruence|discriminate].
  - match goal with |- (_ \/ reports_failure ?r) /\ _ =>
      assert (F : reports_failure r) by (do 2 eexists; repeat split) end.
    repeat split; auto.
Qed.


Lemma do_GET_history (target query : string) (w : world) (limit : Z) :
  urlparse X target = Normal ("/api/history", query) ->
  history_limit (parse_qs X query) = Normal limit ->
  do_GET X target w =
  (w, Normal (send_json
                (PDict [("history", PList (slice_from (SCRAPE_HISTORY w) (- limit)));
                        ("total", PInt (Z.of_nat (List.length (SCRAPE_HISTORY w))))])
                200)).
Proof.
  intros Hu Hl. unfold do_GET, bind, lift. rewrite Hu. simpl. now rewrite Hl.
Qed.

Lemma do_GET_clear (target query : string) (w : world) :
  urlparse X target = Normal ("/api/clear-history", query) ->
  do_GET X target w =
  (mkWorld [] (now w),
   Normal (send_json (PDict [("success", PBool true);
                             ("message", PStr "History cleared")]) 200)).
Proof.
  intros Hu. unfold do_GET, bind, lift. now rewrite Hu.
Qed.



Lemma do_POST_scrape (req : post_request) (body query : string) (d : dict) (w : world) :
  read_body X req = Normal body ->
  json_loads X body = Normal (PDict d) ->
  urlparse X (post_path req) = Normal ("/api/scrape", query) ->
  do_POST X req w =
  let url := dict_get_default d "url" (PStr "") in
  if py_truthy url then
    match run_scrape X url (dict_get_default d "fetcher" (PStr "basic"))
            (dict_get_default d "selectors" (PStr ""))
            (dict_get_default d "extract_type" (PStr "full")) w with
    | (w', Normal result) => (w', Normal (send_json result 200))
    | (w', Raise e) => (w', Raise e)
    end
  else (w, Normal (send_json (PDict [("error", PStr "URL is required")]) 400)).
Proof.
  intros Hb Hj Hu. unfold do_POST, bind, lift. rewrite Hb, Hj, Hu. simpl.
  destruct (py_truthy (dict_get_default d "url" (PStr ""))); reflexivity.
Qed.


Lemma scraped_in_turn_length (ft et : pyval) (w w' : world)
    (us : list string) (rs : list pyval) :
  scraped_in_turn X ft et w us rs w' -> List.length rs = List.length us.
Proof. induction 1; simpl; auto. Qed.

End HandlerFacts.

(** C7: a POST to [/api/scrape] whose JSON object has no [url], or an empty
    one, is answered with status 400 and an error message; the state is
    untouched, so no scrape ran. *)
Theorem missing_url_is_rejected (X : Externals) (req : post_request)
    (body query : string) (d : dict) (w : world) :
  read_body X req = Normal body ->
  json_loads X body = Normal (PDict d) ->
  urlparse X (post_path req) = Normal ("/api/scrape", query) ->
  dict_get "url" d = None \/ dict_get "url" d = Some (PStr "") ->
  do_POST X req w =
  (w, Normal (send_json (PDict [("error", PStr "URL is required")]) 400)).
Proof.
  intros Hb Hj Hu Hurl.
  rewrite (do_POST_scrape X req w Hb Hj Hu). simpl.
  unfold dict_get_default. destruct Hurl as [-> | ->]; reflexivity.
Qed.

Lemma missing_url_is_rejected_witness :
  do_POST Sample.site (mkPost "/api/scrape" None EmptyString) Sample.busy
  = (Sample.busy, Normal (send_json (PDict [("error", PStr "URL is required")]) 400))
  /\ do_POST Sample.site (Sample.post "/api/scrape" (PDict [("url", PStr "")])) Sample.busy
     = (Sample.busy, Normal (send_json (PDict [("error", PStr "URL is required")]) 400)).
Proof.
  split.
  - apply (missing_url_is_rejected Sample.site (mkPost "/api/scrape" None EmptyString)
             (body := "{}") (query := EmptyString) (d := []) Sample.busy);
      try reflexivity. left. reflexivity.
  - apply (missing_url_is_rejected Sample.site
             (Sample.post "/api/scrape" (PDict [("url", PStr "")]))
             (body := Sample.json_text (PDict [("url", PStr "")]))
             (query := EmptyString) (d := [("url", PStr "")]) Sample.busy);
      try reflexivity. right. reflexivity.
Defined.

(** C8: after [/api/clear-history], a read of [/api/history] (without a
    limit, or with an integer one) returns an empty list and a total of 0,
    whatever the history held. *)
Theorem clear_then_history_is_empty (X : Externals)
    (clear_target clear_query history_target history_query : string)
    (limit : Z) (w : world) :
  urlparse X clear_target = Normal ("/api/clear-history", clear_query) ->
  urlparse X history_target = Normal ("/api/history", history_query) ->
  history_limit (parse_qs X history_query) = Normal limit ->
  exists (w1 : world) (cleared : response),
    do_GET X clear_target w = (w1, Normal cleared)
    /\ status cleared = 200
    /\ do_GET X history_target w1 =
       (w1, Normal (send_json (PDict [("history", PList []); ("total", PInt 0)]) 200)).
Proof.
  intros Hc Hh Hl.
  rewrite (do_GET_clear X clear_target w Hc).
  do 2 eexists. split; [reflexivity|]. split; [reflexivity|].
  rewrite (do_GET_history X history_target _ Hh Hl). simpl.
  unfold slice_from. simpl. destruct (- limit <? 0); now rewrite skipn_nil.
Qed.

Lemma clear_then_history_is_empty_witness :
  SCRAPE_HISTORY Sample.busy <> []
  /\ exists (w1 : world) (cleared : response),
       do_GET Sample.site "/api/clear-history" Sample.busy = (w1, Normal cleared)
       /\ status cleared = 200
       /\ do_GET Sample.site "/api/history" w1 =
          (w1, Normal (send_json (PDict [("history", PList []); ("total", PInt 0)]) 200)).
Proof.
  split; [discriminate|].
  apply (clear_then_history_is_empty Sample.site "/api/clear-history" "/api/history"
           (clear_query := EmptyString) (history_query := EmptyString)
           (limit := 50) Sample.busy); reflexivity.
Defined.





(** * Further properties of the scrape operation *)

Lemma fetch_named (X : Externals) (t : nat) (name : string) (url : pyval) :
  known_fetcher name -> fetch X t (PStr name) url <> Normal None.
Proof.
  intros [-> | [-> | ->]]; unfold fetch; simpl.
  - destruct (import_Fetcher X t); simpl; [|discriminate].
    destruct (Fetcher_get X t url); discriminate.
  - destruct (import_StealthyFetcher X t); simpl; [|discriminate].
    destruct (StealthyFetcher_fetch X t url); discriminate.
  - destruct (import_PlayWrightFetcher X t); simpl; [|discriminate].
    destruct (PlayWrightFetcher_fetch X t url); discriminate.
Qed.

Lemma extract_keeps_status (pg : page) (sel et : pyval) (data : dict) :
  extract pg sel et = Normal data ->
  dict_get "status" data = Some (PStr "success").
Proof.
  unfold extract.
  repeat match goal with
         | |- context [if ?b then _ else _] => destruct b
         | |- context [obind ?m _] => destruct m as [?|?]; simpl
         | |- context [match ?l with [] => _ | _ :: _ => _ end] => destruct l
         | |- context [match ?o with Some _ => _ | None => _ end] => destruct o
         end;
    intros H; try discriminate; injection H as <-; reflexivity.
Qed.

(** The records of a scrape, along the ways it can end. *)
Lemma run_scrape_record (X : Externals) (url ft sel et : pyval) (w : world) :
  exists r : dict,
    ((run_scrape X url ft sel et w
      = (mkWorld (SCRAPE_HISTORY w) (S (now w)), Normal (PDict r))
      /\ fetch X (now w) ft url = Normal None
      /\ failure_record r ("Unknown fetcher type: " ++ py_format X ft)%string)
     \/ (run_scrape X url ft sel et w
         = (mkWorld (SCRAPE_HISTORY w ++ [PDict r]) (S (now w)), Normal (PDict r))
         /\ ((exists pg, fetch X (now w) ft url = Normal (Some pg)
                         /\ page_bool pg = false
                         /\ failure_record r "Page returned empty response")
             \/ (exists pg data, fetch X (now w) ft url = Normal (Some pg)
                                 /\ page_bool pg = true
                                 /\ extract pg sel et = Normal data
                                 /\ success_record r data)
             \/ (exists e, scrape_try X (now w) url ft sel et
                             (new_result X (now w) url ft) = Raise e
                           /\ failure_record r (exn_class e ++ ": " ++ exn_msg e)%string))))
    /\ map fst r = result_keys
    /\ dict_get "url" r = Some url
    /\ dict_get "fetcher" r = Some ft.
Proof.
  rewrite run_scrape_cases.
  remember (scrape_try X (now w) url ft sel et (new_result X (now w) url ft)) as o eqn:Ho.
  pose proof (scrape_try_end X (now w) url ft sel et) as Hend.
  rewrite <- Ho in Hend.
  destruct Hend as [Hu|pg H1 Hb|pg data H1 Hb He|e]; simpl; eexists; split.
  - left. split; [reflexivity|]. repeat split; auto.
  - repeat split.
  - right. split; [reflexivity|]. left. exists pg. repeat split; auto.
  - repeat split.
  - right. split; [reflexivity|]. right. left. exists pg, data. repeat split; auto.
  - repeat split.
  - right. split; [reflexivity|]. right. right. exists e. repeat split; auto.
  - repeat split.
Qed.

(** X1: a scrape with one of the three fetcher names appends the record it
    returns to the end of the history, whether it succeeded or failed, and
    changes nothing else of the history. *)
Theorem known_fetcher_result_is_recorded (X : Externals) (url sel et : pyval)
    (name : string) (w : world) :
  known_fetcher name ->
  exists r : dict,
    run_scrape X url (PStr name) sel et w
    = (mkWorld (SCRAPE_HISTORY w ++ [PDict r]) (S (now w)), Normal (PDict r)).
Proof.
  intros Hk.
  destruct (run_scrape_record X url (PStr name) sel et w)
    as (r & [(_ & Hu & _) | (Hr & _)] & _).
  - now apply fetch_named in Hu.
  - now exists r.
Qed.

Lemma known_fetcher_result_is_recorded_witness :
  exists r : dict,
    run_scrape Sample.site (PStr "http://down.example") (PStr "stealthy") PNone
      (PStr "text") Sample.busy
    = (mkWorld (SCRAPE_HISTORY Sample.busy ++ [PDict r]) (S (now Sample.busy)),
       Normal (PDict r)).
Proof.
  apply (known_fetcher_result_is_recorded Sample.site (PStr "http://down.example")
           PNone (PStr "text") (name := "stealthy") Sample.busy).
  right. left. reflexivity.
Defined.

(** X2: every record [run_scrape] returns has the seven fields in their
    fixed order, repeats the URL and the fetcher it was given, and is of one
    of two kinds: [success] true with a payload that holds
    [status = "success"] and no error, or [success] false with no payload and
    an error string. *)
Theorem result_record_shape (X : Externals) (url ft sel et : pyval) (w : world) :
  exists r : dict,
    snd (run_scrape X url ft sel et w) = Normal (PDict r)
    /\ map fst r = result_keys
    /\ dict_get "url" r = Some url
    /\ dict_get "fetcher" r = Some ft
    /\ ((exists data, success_record r data
                      /\ dict_get "status" data = Some (PStr "success"))
        \/ (exists msg, failure_record r msg)).
Proof.
  destruct (run_scrape_record X url ft sel et w)
    as (r & [(Hr & _ & F) | (Hr & [(pg & _ & _ & F) |
         [(pg & data & _ & _ & He & S) | (e & _ & F)]])] & Hk & Hurl & Hft);
    exists r; rewrite Hr; simpl; repeat (split; [assumption || reflexivity|]);
    eauto using extract_keeps_status.
Qed.

(** X3: a fetch that returns an empty (falsy) page gives a failure with the
    message "Page returned empty response", and the record is appended to the
    history. *)
Theorem empty_page_is_a_recorded_failure (X : Externals) (url ft sel et : pyval)
    (w : world) (pg : page) :
  fetch X (now w) ft url = Normal (Some pg) ->
  page_bool pg = false ->
  exists r : dict,
    run_scrape X url ft sel et w
    = (mkWorld (SCRAPE_HISTORY w ++ [PDict r]) (S (now w)), Normal (PDict r))
    /\ failure_record r "Page returned empty response".
Proof.
  intros Hf Hb.
  destruct (run_scrape_record X url ft sel et w)
    as (r & [(_ & Hu & _) | (Hr & [(pg' & _ & _ & F) |
         [(pg' & data & Hf' & Hb' & _) | (e & He & _)]])] & _).
  - congruence.
  - eauto.
  - congruence.
  - unfold scrape_try in He. rewrite Hf in He. simpl in He.
    rewrite Hb in He. discriminate.
Qed.

Lemma empty_page_is_a_recorded_failure_witness :
  exists r : dict,
    run_scrape Sample.site (PStr "http://empty.example") (PStr "basic") PNone
      (PStr "links") Sample.fresh
    = (mkWorld [PDict r] 1, Normal (PDict r))
    /\ failure_record r "Page returned empty response".
Proof.
  apply (empty_page_is_a_recorded_failure Sample.site (PStr "http://empty.example")
           (PStr "basic") PNone (PStr "links") Sample.fresh (pg := Sample.blank_page));
    reflexivity.
Defined.

(** X4: when the extraction raises (a selector the library rejects, say),
    the payload built so far is dropped: the record is a failure whose error
    is the class and the message of the exception, and it is appended to the
    history. *)
Theorem extraction_error_is_a_recorded_failure (X : Externals)
    (url ft sel et : pyval) (w : world) (pg : page) (e : exn) :
  fetch X (now w) ft url = Normal (Some pg) ->
  page_bool pg = true ->
  extract pg sel et = Raise e ->
  exists r : dict,
    run_scrape X url ft sel et w
    = (mkWorld (SCRAPE_HISTORY w ++ [PDict r]) (S (now w)), Normal (PDict r))
    /\ failure_record r (exn_class e ++ ": " ++ exn_msg e)%string.
Proof.
  intros Hf Hb He.
  assert (Ht : scrape_try X (now w) url ft sel et (new_result X (now w) url ft)
               = Raise e).
  { unfold scrape_try. rewrite Hf. simpl. rewrite Hb, He. reflexivity. }
  rewrite run_scrape_cases. simpl. rewrite Ht.
  eexists. split; [reflexivity|]. repeat split.
Qed.

Lemma extraction_error_is_a_recorded_failure_witness :
  exists r : dict,
    run_scrape Sample.site (PStr "http://example.com") (PStr "basic") (PStr "a[")
      (PStr "css") Sample.fresh
    = (mkWorld [PDict r] 1, Normal (PDict r))
    /\ failure_record r "SelectorSyntaxError: Expected ']'".
Proof.
  apply (extraction_error_is_a_recorded_failure Sample.site (PStr "http://example.com")
           (PStr "basic") (PStr "a[") (PStr "css") Sample.fresh
           (pg := Sample.shop_page) (e := mkExn "SelectorSyntaxError" "Expected ']'"));
    reflexivity.
Defined.

(** ** What the extraction modes return *)













(** X5: the "full" mode reports the title of the first [title] element (or
    the empty string), and counts every link and every image the page has:
    the counts are not cut at 50 as the lists of the other modes are. *)
Theorem full_extraction_counts_everything (pg : page) (sel : pyval) (data : dict) :
  extract pg sel (PStr "full") = Normal data ->
  exists title_els links imgs : list element,
    page_css pg (PStr "title") = Normal title_els
    /\ page_css pg (PStr "a[href]") = Normal links
    /\ page_css pg (PStr "img") = Normal imgs
    /\ map fst data = ["status"; "title"; "text_length"; "html_length";
                       "link_count"; "image_count"]
    /\ dict_get "title" data
       = Some (PStr (match title_els with
                     | [] => ""
                     | e :: _ => element_label e
                     end))
    /\ dict_get "link_count" data = Some (PInt (Z.of_nat (List.length links)))
    /\ dict_get "image_count" data = Some (PInt (Z.of_nat (List.length imgs)))
    /\ (page_get_all_text pg = None -> dict_get "text_length" data = Some (PInt 0))
    /\ (forall s, page_get_all_text pg = Some (Normal s) ->
                  dict_get "text_length" data
                  = Some (PInt (Z.of_nat (String.length s)))).
Proof.
  unfold extract. simpl.
  destruct (page_css pg (PStr "title")) as [title_els|e]; simpl; [|discriminate].
  destruct (page_get_all_text pg) as [[s|e]|]; simpl; try discriminate;
    (destruct (page_body pg) as [[b|e]|]; simpl; try discriminate);
    (destruct (page_css pg (PStr "a[href]")) as [links|e]; simpl; [|discriminate]);
    (destruct (page_css pg (PStr "img")) as [imgs|e]; simpl; [|discriminate]);
    intros H; injection H as <-; exists title_els, links, imgs;
    destruct title_els as [|t ?]; simpl;
    repeat split; try reflexivity; try discriminate;
    intros s' Hs'; injection Hs' as <-; reflexivity.
Qed.

Lemma full_extraction_counts_everything_witness :
  exists data : dict,
    extract Sample.shop_page PNone (PStr "full") = Normal data
    /\ dict_get "title" data = Some (PStr "Shop")
    /\ dict_get "link_count" data = Some (PInt 60)
    /\ dict_get "image_count" data = Some (PInt 55).
Proof.
  set (data := match extract Sample.shop_page PNone (PStr "full") with
               | Normal d => d
               | Raise _ => []
               end).
  assert (Hd : extract Sample.shop_page PNone (PStr "full") = Normal data)
    by (vm_compute; reflexivity).
  exists data. split; [exact Hd|].
  destruct (full_extraction_counts_everything _ _ Hd)
    as (title_els & links & imgs & Ht & Hl & Hi & _ & Htitle & Hlc & Hic & _).
  assert (title_els = [mkElement (Some "Shop") "<title>" None])
    by (vm_compute in Ht; congruence).
  assert (links = Sample.sixty_links) by (vm_compute in Hl; vm_compute; congruence).
  assert (imgs = Sample.fifty_five_images) by (vm_compute in Hi; vm_compute; congruence).
  subst. repeat split; assumption.
Defined.



(** * Further properties of the GET handler *)

(** X7: no GET request other than [/api/clear-history] changes the process
    state, whatever it answers and even when it raises. *)
Theorem get_is_read_only_except_clear (X : Externals) (target : string) (w : world) :
  (forall query, urlparse X target <> Normal ("/api/clear-history", query)) ->
  fst (do_GET X target w) = w.
Proof.
  intros Hnc. unfold do_GET, bind, lift.
  destruct (urlparse X target) as [[path query]|e] eqn:Hu; simpl; [|reflexivity].
  destruct (String.eqb path "/" || String.eqb path "/index.html"); [reflexivity|].
  destruct (String.eqb path "/api/status"); [reflexivity|].
  destruct (String.eqb path "/api/history").
  { destruct (history_limit (parse_qs X query)); reflexivity. }
  destruct (String.eqb path "/api/presets"); [reflexivity|].
  destruct (String.eqb path "/api/clear-history") eqn:Hc; [|reflexivity].
  apply String.eqb_eq in Hc. subst path. now destruct (Hnc query).
Qed.

Lemma get_is_read_only_except_clear_witness :
  fst (do_GET Sample.site "/api/history?limit=abc" Sample.busy) = Sample.busy
  /\ fst (do_GET Sample.site "/api/status" Sample.busy) = Sample.busy.
Proof.
  split; apply get_is_read_only_except_clear; discriminate.
Defined.





Lemma int_isspace_isspace (c : ascii) :
  py_isspace c = false -> int_isspace c = false.
Proof.
  unfold py_isspace, int_isspace. intros H.
  destruct ((9 <=? nat_of_ascii c)%nat && (nat_of_ascii c <=? 13)%nat) eqn:E1;
    [discriminate|].
  destruct (nat_of_ascii c =? 133)%nat eqn:E3;
    [now rewrite !orb_true_r in H|].
  destruct (nat_of_ascii c =? 160)%nat eqn:E4;
    [now rewrite !orb_true_r in H|].
  destruct (nat_of_ascii c =? 32)%nat eqn:E2; [|reflexivity].
  apply Nat.eqb_eq in E2. rewrite E2 in H. discriminate.
Qed.

Lemma int_lstrip_keeps (c : ascii) (cs : list ascii) :
  py_isspace c = false -> In c cs -> In c (int_lstrip cs).
Proof.
  intros Hc. apply int_isspace_isspace in Hc.
  induction cs as [|x cs IH]; simpl; [tauto|].
  intros [-> | Hin].
  - rewrite Hc. now left.
  - destruct (int_isspace x); [auto|now right].
Qed.

Lemma int_digits_rejects (c : ascii) (cs : list ascii) :
  is_digit c = false -> Ascii.eqb c "_" = false -> In c cs ->
  forall prev acc, int_digits cs prev acc = None.
Proof.
  intros Hd Hu. induction cs as [|x cs IH]; simpl; [tauto|].
  intros [-> | Hin] prev acc.
  - now rewrite Hd, Hu.
  - destruct (is_digit x); [now apply IH|].
    destruct (Ascii.eqb x "_" && prev); [now apply IH|reflexivity].
Qed.

Lemma int_literal_unsigned (x : ascii) (ds : list ascii) :
  x <> "-"%char -> x <> "+"%char ->
  int_literal (x :: ds) = int_digits (x :: ds) false 0.
Proof.
  intros Hm Hp.
  destruct x as [[] [] [] [] [] [] [] []]; try reflexivity; congruence.
Qed.

Lemma int_literal_rejects (c : ascii) (cs : list ascii) :
  not_in_int_literal c = true -> In c cs -> int_literal cs = None.
Proof.
  unfold not_in_int_literal. intros Hc Hin.
  apply negb_true_iff in Hc.
  repeat (apply orb_false_elim in Hc; destruct Hc as [Hc ?H]).
  destruct cs as [|x ds]; [destruct Hin|].
  destruct (Ascii.eqb_spec x "-") as [-> | Hm].
  { destruct Hin as [<- | Hin]; [discriminate|].
    simpl. now rewrite (int_digits_rejects c ds). }
  destruct (Ascii.eqb_spec x "+") as [-> | Hp].
  { destruct Hin as [<- | Hin]; [discriminate|].
    simpl. now apply int_digits_rejects with (c := c). }
  rewrite int_literal_unsigned by assumption.
  now apply int_digits_rejects with (c := c).
Qed.

Lemma int_of_str_rejects (c : ascii) (s : string) :
  not_in_int_literal c = true -> In c (list_ascii_of_string s) ->
  exists msg, int_of_str s = Raise (ValueError msg).
Proof.
  intros Hc Hin. unfold int_of_str.
  destruct (int_max_str_digits <? _)%nat; [eexists; reflexivity|].
  assert (Hsp : py_isspace c = false).
  { unfold not_in_int_literal in Hc. apply negb_true_iff in Hc.
    repeat (apply orb_false_elim in Hc; destruct Hc as [Hc ?H]). assumption. }
  rewrite (int_literal_rejects c); [eexists; reflexivity|assumption|].
  apply in_rev. rewrite rev_involutive. apply int_lstrip_keeps; [assumption|].
  apply -> in_rev. now apply int_lstrip_keeps.
Qed.

(** X10: a [limit] whose first value holds a character that is neither a
    digit, a sign, an underscore nor white space makes [/api/history] raise
    [ValueError]: no response is sent and the state is unchanged. *)
Theorem malformed_limit_raises (X : Externals) (target query s : string)
    (others : list string) (c : ascii) (w : world) :
  urlparse X target = Normal ("/api/history", query) ->
  params_get (parse_qs X query) "limit" = Some (s :: others) ->
  In c (list_ascii_of_string s) ->
  not_in_int_literal c = true ->
  exists msg, do_GET X target w = (w, Raise (ValueError msg)).
Proof.
  intros Hu Hp Hin Hc.
  destruct (int_of_str_rejects c s Hc Hin) as (msg & Hmsg).
  exists msg. unfold do_GET, bind, lift. rewrite Hu. simpl.
  unfold history_limit. now rewrite Hp, Hmsg.
Qed.

Lemma malformed_limit_raises_witness :
  exists msg,
    do_GET Sample.site "/api/history?limit=ten" Sample.busy
    = (Sample.busy, Raise (ValueError msg)).
Proof.
  apply (malformed_limit_raises Sample.site "/api/history?limit=ten"
           (query := "limit=ten") (s := "ten") (others := []) "t"%char
           Sample.busy); try reflexivity.
  left. reflexivity.
Defined.

Lemma check_scrapling_flags (X : Externals) (t : nat) :
  let sc := check_scrapling X t in
  map fst sc = status_keys
  /\ dict_get "fetcher" sc = Some (PBool (import_ok (import_Fetcher X t)))
  /\ dict_get "stealthy_fetcher" sc
     = Some (PBool (import_ok (import_StealthyFetcher X t)))
  /\ dict_get "playwright_fetcher" sc
     = Some (PBool (import_ok (import_PlayWrightFetcher X t)))
  /\ dict_get "mcp_server" sc
     = Some (PBool (import_ok (import_ScraplingMCPServer X t)))
  /\ dict_get "version" sc
     = Some (match import_scrapling X t with
             | Normal (Some v) => v
             | Normal None => PStr "0.4+"
             | Raise _ => PStr "unknown"
             end).
Proof.
  unfold check_scrapling.
  generalize (import_Fetcher X t), (import_StealthyFetcher X t),
    (import_PlayWrightFetcher X t), (import_ScraplingMCPServer X t),
    (import_scrapling X t).
  intros [] [] [] [] [[v|]|]; cbv; repeat (split; [reflexivity|]); reflexivity.
Qed.

(** X11: [/api/status] answers 200 without changing the state; its
    [history_count] is the length of the history, and its [scrapling] entry
    has the five keys of [check_scrapling], each flag telling whether the
    import succeeds, with the version "unknown" when [scrapling] cannot be
    imported and "0.4+" when it has no [__version__]. *)
Theorem status_reports_imports_and_history (X : Externals) (target query : string)
    (w : world) :
  urlparse X target = Normal ("/api/status", query) ->
  exists st sc : dict,
    do_GET X target w = (w, Normal (send_json (PDict st) 200))
    /\ dict_get "history_count" st
       = Some (PInt (Z.of_nat (List.length (SCRAPE_HISTORY w))))
    /\ dict_get "scrapling" st = Some (PDict sc)
    /\ map fst sc = status_keys
    /\ (forall name, known_fetcher name ->
          dict_get (fetcher_flag name) sc
          = Some (PBool (import_ok (fetcher_import X (now w) name))))
    /\ dict_get "version" sc
       = Some (match import_scrapling X (now w) with
               | Normal (Some v) => v
               | Normal None => PStr "0.4+"
               | Raise _ => PStr "unknown"
               end).
Proof.
  intros Hu.
  destruct (check_scrapling_flags X (now w)) as (Hk & H1 & H2 & H3 & _ & Hv).
  exists ([("server", PStr "running"); ("port", PInt PORT);
           ("uptime_seconds", uptime X (now w));
           ("scrapling", PDict (check_scrapling X (now w)));
           ("history_count", PInt (Z.of_nat (List.length (SCRAPE_HISTORY w))));
           ("python_version", PStr (python_version X))]),
         (check_scrapling X (now w)).
  split; [unfold do_GET, bind, lift; now rewrite Hu|].
  repeat (split; [assumption || reflexivity|]).
  split; [|assumption].
  intros name [-> | [-> | ->]]; assumption.
Qed.

Lemma status_reports_imports_and_history_witness :
  exists st sc : dict,
    do_GET Sample.site "/api/status" Sample.busy
    = (Sample.busy, Normal (send_json (PDict st) 200))
    /\ dict_get "history_count" st = Some (PInt 10)
    /\ dict_get "scrapling" st = Some (PDict sc)
    /\ dict_get "fetcher" sc = Some (PBool true)
    /\ dict_get "stealthy_fetcher" sc = Some (PBool false)
    /\ dict_get "version" sc = Some (PStr "0.4+").
Proof.
  destruct (status_reports_imports_and_history Sample.site "/api/status"
              (query := EmptyString) Sample.busy eq_refl)
    as (st & sc & Hget & Hcount & Hsc & _ & Hflag & Hver).
  exists st, sc. split; [exact Hget|]. split; [exact Hcount|].
  split; [exact Hsc|]. split.
  - apply (Hflag "basic"). left. reflexivity.
  - split; [|exact Hver].
    apply (Hflag "stealthy"). right. left. reflexivity.
Defined.

(** X12: when the status flags a fetcher as unavailable, a scrape with that
    fetcher at the same moment fails with the error of the import (the
    page is never fetched), and the failure is appended to the history. *)
Theorem unavailable_fetcher_scrape_fails (X : Externals) (url sel et : pyval)
    (name : string) (w : world) :
  known_fetcher name ->
  dict_get (fetcher_flag name) (check_scrapling X (now w)) = Some (PBool false) ->
  exists (e : exn) (r : dict),
    fetcher_import X (now w) name = Raise e
    /\ run_scrape X url (PStr name) sel et w
       = (mkWorld (SCRAPE_HISTORY w ++ [PDict r]) (S (now w)), Normal (PDict r))
    /\ failure_record r (exn_class e ++ ": " ++ exn_msg e)%string.
Proof.
  intros Hk Hflag.
  destruct (check_scrapling_flags X (now w)) as (_ & H1 & H2 & H3 & _).
  assert (Himp : exists e, fetcher_import X (now w) name = Raise e).
  { destruct Hk as [-> | [-> | ->]];
      cbv [fetcher_flag fetcher_import String.eqb Ascii.eqb Bool.eqb] in Hflag |- *;
      [rewrite H1 in Hflag|rewrite H2 in Hflag|rewrite H3 in Hflag];
      match goal with
      | |- exists e, ?imp = Raise e => destruct imp as [?|e]; [discriminate|eauto]
      end. }
  destruct Himp as (e & He). exists e.
  assert (Ht : scrape_try X (now w) url (PStr name) sel et
                 (new_result X (now w) url (PStr name)) = Raise e).
  { unfold scrape_try, fetch.
    destruct Hk as [-> | [-> | ->]];
      cbv [fetcher_import String.eqb Ascii.eqb Bool.eqb] in He;
      simpl; now rewrite He. }
  rewrite run_scrape_cases. simpl. rewrite Ht.
  eexists. split; [exact He|]. split; [reflexivity|]. repeat split.
Qed.

Lemma unavailable_fetcher_scrape_fails_witness :
  exists r : dict,
    run_scrape Sample.site (PStr "http://example.com") (PStr "stealthy") PNone
      (PStr "full") Sample.fresh
    = (mkWorld [PDict r] 1, Normal (PDict r))
    /\ failure_record r "ImportError: cannot import name StealthyFetcher".
Proof.
  destruct (unavailable_fetcher_scrape_fails Sample.site (PStr "http://example.com")
              PNone (PStr "full") (name := "stealthy") Sample.fresh
              (or_intror (or_introl eq_refl)) eq_refl)
    as (e & r & He & Hr & Hf).
  exists r. split; [exact Hr|].
  assert (e = mkExn "ImportError" "cannot import name StealthyFetcher")
    by (vm_compute in He; congruence).
  subst e. exact Hf.
Defined.

(** * Further properties of the POST handler *)

Section BatchFacts.

Variable X : Externals.
Variables ft et : pyval.

Lemma run_scrape_known (url sel : pyval) (name : string) (w : world) :
  ft = PStr name -> known_fetcher name ->
  exists r : dict,
    run_scrape X url ft sel et w
    = (mkWorld (SCRAPE_HISTORY w ++ [PDict r]) (S (now w)), Normal (PDict r)).
Proof.
  intros -> Hk.
  destruct (run_scrape_record X url (PStr name) sel et w)
    as (r & [(_ & Hu & _) | (Hr & _)] & _); [|now exists r].
  now apply fetch_named in Hu.
Qed.

(** The loop over a list that starts with strings: these are scraped in
    turn, and the loop goes on with the rest. *)
Lemma batch_loop_strings_then (us : list string) (items : list pyval) :
  forall (done : list pyval) (w : world),
  exists (rs : list pyval) (w1 : world),
    scraped_in_turn X ft et w us rs w1
    /\ batch_loop X (map PStr us ++ items) ft et done w
       = batch_loop X items ft et (done ++ rs) w1.
Proof.
  induction us as [|u us IH]; intros done w; simpl.
  - exists [], w. rewrite app_nil_r. split; [constructor|reflexivity].
  - destruct (run_scrape_total X (PStr (str_strip u)) ft PNone et w)
      as (w1 & r & Hr & Hurl & _).
    destruct (IH (done ++ [PDict r]) w1) as (rs & w2 & Hturn & Hloop).
    exists (PDict r :: rs), w2. split.
    + econstructor; eauto.
    + unfold bind, lift. simpl. rewrite Hr, Hloop. now rewrite <- app_assoc.
Qed.

Lemma batch_loop_keeps_history (items : list pyval) :
  forall (done : list pyval) (w : world),
  exists added : list pyval,
    SCRAPE_HISTORY (fst (batch_loop X items ft et done w)) = SCRAPE_HISTORY w ++ added.
Proof.
  induction items as [|url items IH]; intros done w; simpl.
  - exists []. now rewrite app_nil_r.
  - unfold bind, lift. destruct (py_strip url) as [stripped|e]; simpl.
    + destruct (run_scrape_total X stripped ft PNone et w)
        as (w1 & r & Hr & _).
      destruct (run_scrape_keeps_history X stripped ft PNone et w) as (a1 & Ha1).
      rewrite Hr in Ha1 |- *. simpl in Ha1.
      destruct (IH (done ++ [PDict r]) w1) as (a2 & Ha2).
      exists (a1 ++ a2). rewrite Ha2, Ha1. now rewrite app_assoc.
    + exists []. now rewrite app_nil_r.
Qed.

Lemma in_turn_known (name : string) (w w' : world) (us : list string)
    (rs : list pyval) :
  ft = PStr name -> known_fetcher name ->
  scraped_in_turn X ft et w us rs w' ->
  recorded w rs (List.length rs) w'.
Proof.
  intros Hft Hk. induction 1 as [w|w w1 w2 u us r rs Hr _ _ IH]; unfold recorded.
  - simpl. rewrite app_nil_r. split; [reflexivity|lia].
  - destruct (run_scrape_known (PStr (str_strip u)) PNone w Hft Hk) as (r' & Hr').
    rewrite Hr' in Hr. injection Hr as <- <-.
    destruct IH as (IH1 & IH2). simpl in *. rewrite IH1, IH2.
    split; [now rewrite <- app_assoc|lia].
Qed.

Lemma in_turn_unknown (w w' : world) (us : list string) (rs : list pyval) :
  py_eq_str ft "basic" = false ->
  py_eq_str ft "stealthy" = false ->
  py_eq_str ft "playwright" = false ->
  scraped_in_turn X ft et w us rs w' ->
  SCRAPE_HISTORY w' = SCRAPE_HISTORY w
  /\ Forall (fun r => exists d, r = PDict d
                      /\ failure_record d ("Unknown fetcher type: " ++ py_format X ft)%string)
       rs.
Proof.
  intros H1 H2 H3. induction 1 as [w|w w1 w2 u us r rs Hr _ _ IH].
  - split; [reflexivity|constructor].
  - rewrite run_scrape_unknown in Hr by now apply fetch_unknown.
    injection Hr as <- <-. destruct IH as (IH1 & IH2). simpl in IH1.
    split; [assumption|]. constructor; [|assumption].
    eexists. split; [reflexivity|]. repeat split.
Qed.


End BatchFacts.

Lemma do_POST_batch (X : Externals) (req : post_request) (body query : string)
    (d : dict) (w : world) :
  read_body X req = Normal body ->
  json_loads X body = Normal (PDict d) ->
  urlparse X (post_path req) = Normal ("/api/batch-scrape", query) ->
  do_POST X req w =
  match first_ten (dict_get_default d "urls" (PList [])) with
  | Raise e => (w, Raise e)
  | Normal items =>
      match batch_loop X items (dict_get_default d "fetcher" (PStr "basic"))
              (dict_get_default d "extract_type" (PStr "full")) [] w with
      | (w', Normal results) =>
          (w', Normal (send_json (PDict [("results", PList results)]) 200))
      | (w', Raise e) => (w', Raise e)
      end
  end.
Proof.
  intros Hb Hj Hu. unfold do_POST, bind, lift. rewrite Hb, Hj, Hu. simpl.
  destruct (first_ten (dict_get_default d "urls" (PList []))); reflexivity.
Qed.

Lemma do_POST_batch_strings (X : Externals) (req : post_request)
    (body query : string) (d : dict) (us : list string) (w : world) :
  read_body X req = Normal body ->
  json_loads X body = Normal (PDict d) ->
  urlparse X (post_path req) = Normal ("/api/batch-scrape", query) ->
  first_ten (dict_get_default d "urls" (PList [])) = Normal (map PStr us) ->
  exists (rs : list pyval) (w' : world),
    do_POST X req w = (w', Normal (send_json (PDict [("results", PList rs)]) 200))
    /\ scraped_in_turn X (dict_get_default d "fetcher" (PStr "basic"))
         (dict_get_default d "extract_type" (PStr "full")) w us rs w'.
Proof.
  intros Hb Hj Hu Hten.
  rewrite (do_POST_batch X req w Hb Hj Hu), Hten.
  destruct (batch_loop_strings_then X (dict_get_default d "fetcher" (PStr "basic"))
              (dict_get_default d "extract_type" (PStr "full")) us [] [] w)
    as (rs & w' & Hturn & Hloop).
  rewrite app_nil_r in Hloop. rewrite Hloop. simpl.
  exists rs, w'. split; [reflexivity|assumption].
Qed.

Lemma first_ten_strings (d : dict) (us : list string) :
  dict_get "urls" d = Some (PList (map PStr us)) ->
  first_ten (dict_get_default d "urls" (PList [])) = Normal (map PStr (firstn 10 us)).
Proof.
  intros Hurls. unfold dict_get_default. rewrite Hurls. simpl.
  unfold slice_to. now rewrite firstn_map.
Qed.

(** X13: the records of a batch with one of the three fetcher names are
    appended to the history in the order of the response: after the batch the
    history is the old one followed by the results. *)
Theorem batch_results_are_recorded (X : Externals) (req : post_request)
    (body query name : string) (d : dict) (us : list string) (w : world) :
  read_body X req = Normal body ->
  json_loads X body = Normal (PDict d) ->
  urlparse X (post_path req) = Normal ("/api/batch-scrape", query) ->
  dict_get "urls" d = Some (PList (map PStr us)) ->
  dict_get_default d "fetcher" (PStr "basic") = PStr name ->
  known_fetcher name ->
  exists (rs : list pyval) (w' : world),
    do_POST X req w = (w', Normal (send_json (PDict [("results", PList rs)]) 200))
    /\ SCRAPE_HISTORY w' = SCRAPE_HISTORY w ++ rs
    /\ List.length rs = Nat.min 10 (List.length us).
Proof.
  intros Hb Hj Hu Hurls Hft Hk.
  destruct (do_POST_batch_strings X req (firstn 10 us) w Hb Hj Hu
              (first_ten_strings d us Hurls))
    as (rs & w' & Hpost & Hturn).
  exists rs, w'. split; [assumption|]. split.
  - now destruct (in_turn_known Hft Hk Hturn).
  - rewrite (scraped_in_turn_length Hturn). apply length_firstn.
Qed.

Lemma batch_results_are_recorded_witness :
  exists (rs : list pyval) (w' : world),
    do_POST Sample.site
      (Sample.post "/api/batch-scrape"
         (PDict [("urls", PList (map PStr Sample.twelve_urls))]))
      Sample.busy
    = (w', Normal (send_json (PDict [("results", PList rs)]) 200))
    /\ SCRAPE_HISTORY w' = SCRAPE_HISTORY Sample.busy ++ rs
    /\ List.length rs = 10%nat.
Proof.
  apply (batch_results_are_recorded Sample.site
           (Sample.post "/api/batch-scrape"
              (PDict [("urls", PList (map PStr Sample.twelve_urls))]))
           (body := Sample.json_text
                      (PDict [("urls", PList (map PStr Sample.twelve_urls))]))
           (query := EmptyString) (name := "basic")
           (d := [("urls", PList (map PStr Sample.twelve_urls))])
           Sample.twelve_urls Sample.busy); try reflexivity.
  left. reflexivity.
Defined.

(** X14: a batch with an unknown fetcher name answers 200 with one failure
    per URL, each naming the fetcher, and leaves the history as it was. *)
Theorem batch_with_unknown_fetcher_is_not_recorded (X : Externals)
    (req : post_request) (body query name : string) (d : dict)
    (us : list string) (w : world) :
  read_body X req = Normal body ->
  json_loads X body = Normal (PDict d) ->
  urlparse X (post_path req) = Normal ("/api/batch-scrape", query) ->
  dict_get "urls" d = Some (PList (map PStr us)) ->
  dict_get "fetcher" d = Some (PStr name) ->
  ~ known_fetcher name ->
  exists (rs : list pyval) (w' : world),
    do_POST X req w = (w', Normal (send_json (PDict [("results", PList rs)]) 200))
    /\ SCRAPE_HISTORY w' = SCRAPE_HISTORY w
    /\ List.length rs = Nat.min 10 (List.length us)
    /\ Forall (fun r => exists r', r = PDict r'
                        /\ failure_record r' ("Unknown fetcher type: " ++ name)%string)
         rs.
Proof.
  intros Hb Hj Hu Hurls Hft Hk.
  destruct (do_POST_batch_strings X req (firstn 10 us) w Hb Hj Hu
              (first_ten_strings d us Hurls))
    as (rs & w' & Hpost & Hturn).
  assert (Hf : dict_get_default d "fetcher" (PStr "basic") = PStr name)
    by (unfold dict_get_default; now rewrite Hft).
  rewrite Hf in Hturn.
  assert (Hne : name <> "basic" /\ name <> "stealthy" /\ name <> "playwright").
  { unfold known_fetcher in Hk. repeat split; intros ->; tauto. }
  destruct Hne as (N1 & N2 & N3).
  destruct (in_turn_unknown (py_eq_str_false N1) (py_eq_str_false N2)
              (py_eq_str_false N3) Hturn) as (Hh & Hall).
  exists rs, w'. split; [assumption|]. split; [assumption|]. split.
  - rewrite (scraped_in_turn_length Hturn). apply length_firstn.
  - exact Hall.
Qed.

Lemma batch_with_unknown_fetcher_is_not_recorded_witness :
  exists (rs : list pyval) (w' : world),
    do_POST Demo.site
      (Sample.post "/api/batch-scrape"
         (PDict [("urls", PList (map PStr Demo.two_urls)); ("fetcher", PStr "curl")]))
      Sample.busy
    = (w', Normal (send_json (PDict [("results", PList rs)]) 200))
    /\ SCRAPE_HISTORY w' = SCRAPE_HISTORY Sample.busy
    /\ List.length rs = 2%nat.
Proof.
  destruct (batch_with_unknown_fetcher_is_not_recorded Demo.site
              (Sample.post "/api/batch-scrape"
                 (PDict [("urls", PList (map PStr Demo.two_urls));
                         ("fetcher", PStr "curl")]))
              (body := Sample.json_text
                         (PDict [("urls", PList (map PStr Demo.two_urls));
                                 ("fetcher", PStr "curl")]))
              (query := EmptyString) (name := "curl")
              (d := [("urls", PList (map PStr Demo.two_urls)); ("fetcher", PStr "curl")])
              Demo.two_urls Sample.busy eq_refl eq_refl eq_refl eq_refl eq_refl)
    as (rs & w' & Hpost & Hh & Hlen & _).
  { intros [H | [H | H]]; discriminate. }
  exists rs, w'. repeat split; assumption.
Defined.



(** X16: when an entry of [urls] among the first ten is not a string, the
    strings before it are scraped (and stay scraped), then [do_POST] raises
    [AttributeError] for the missing [strip]: no response is sent. *)
Theorem batch_stops_at_first_non_string (X : Externals) (req : post_request)
    (body query : string) (d : dict) (us : list string) (v : pyval)
    (rest : list pyval) (w : world) :
  read_body X req = Normal body ->
  json_loads X body = Normal (PDict d) ->
  urlparse X (post_path req) = Normal ("/api/batch-scrape", query) ->
  dict_get "urls" d = Some (PList (map PStr us ++ v :: rest)) ->
  (forall s, v <> PStr s) ->
  (List.length us < 10)%nat ->
  exists (rs : list pyval) (w' : world),
    scraped_in_turn X (dict_get_default d "fetcher" (PStr "basic"))
      (dict_get_default d "extract_type" (PStr "full")) w us rs w'
    /\ do_POST X req w = (w', Raise (no_attribute v "strip")).
Proof.
  intros Hb Hj Hu Hurls Hv Hlen.
  rewrite (do_POST_batch X req w Hb Hj Hu).
  unfold dict_get_default. rewrite Hurls.
  unfold first_ten, slice_to. rewrite firstn_app, length_map.
  rewrite (firstn_all2 (n := 10) (map PStr us)) by (rewrite length_map; lia).
  destruct (10 - List.length us)%nat as [|k] eqn:Hk; [lia|]. simpl firstn.
  destruct (batch_loop_strings_then X
              match dict_get "fetcher" d with Some f => f | None => PStr "basic" end
              match dict_get "extract_type" d with Some f => f | None => PStr "full" end
              us (v :: firstn k rest) [] w)
    as (rs & w' & Hturn & Hloop).
  exists rs, w'. split; [exact Hturn|]. rewrite Hloop.
  simpl. unfold bind, lift.
  destruct v; try reflexivity. now destruct (Hv s).
Qed.

Lemma batch_stops_at_first_non_string_witness :
  exists (rs : list pyval) (w' : world),
    scraped_in_turn Sample.site (PStr "basic") (PStr "full") Sample.fresh
      ["http://example.com"] rs w'
    /\ List.length (SCRAPE_HISTORY w') = 1%nat
    /\ do_POST Sample.site
         (Sample.post "/api/batch-scrape"
            (PDict [("urls", PList [PStr "http://example.com"; PInt 5])]))
         Sample.fresh
       = (w', Raise (AttributeError "'int' object has no attribute 'strip'")).
Proof.
  destruct (batch_stops_at_first_non_string Sample.site
              (Sample.post "/api/batch-scrape"
                 (PDict [("urls", PList [PStr "http://example.com"; PInt 5])]))
              (body := Sample.json_text
                         (PDict [("urls", PList [PStr "http://example.com"; PInt 5])]))
              (query := EmptyString)
              (d := [("urls", PList [PStr "http://example.com"; PInt 5])])
              ["http://example.com"] (v := PInt 5) [] Sample.fresh
              eq_refl eq_refl eq_refl eq_refl
              ltac:(discriminate) ltac:(simpl; lia))
    as (rs & w' & Hturn & Hpost).
  exists rs, w'. split; [exact Hturn|]. split; [|exact Hpost].
  assert (Hw : w' = fst (do_POST Sample.site
                           (Sample.post "/api/batch-scrape"
                              (PDict [("urls", PList [PStr "http://example.com"; PInt 5])]))
                           Sample.fresh)) by now rewrite Hpost.
  rewrite Hw. reflexivity.
Defined.




(** X18: a batch whose body has no [urls] answers 200 with an empty list
    of results; one whose [urls] is null, a boolean or a number raises
    [TypeError].  Neither changes the state. *)
Theorem batch_without_a_list (X : Externals) (req : post_request)
    (body query : string) (d : dict) (w : world) :
  read_body X req = Normal body ->
  json_loads X body = Normal (PDict d) ->
  urlparse X (post_path req) = Normal ("/api/batch-scrape", query) ->
  (dict_get "urls" d = None ->
   do_POST X req w = (w, Normal (send_json (PDict [("results", PList [])]) 200)))
  /\ (forall v,
        dict_get "urls" d = Some v ->
        py_type_name v = "NoneType" \/ py_type_name v = "bool"
        \/ py_type_name v = "int" \/ py_type_name v = "float" ->
        do_POST X req w
        = (w, Raise (TypeError ("'" ++ py_type_name v ++ "' object is not subscriptable")))).
Proof.
  intros Hb Hj Hu. rewrite (do_POST_batch X req w Hb Hj Hu).
  unfold dict_get_default. split.
  - intros ->. reflexivity.
  - intros v -> Hv.
    destruct v; simpl in Hv; try reflexivity;
      destruct Hv as [Hv | [Hv | [Hv | Hv]]]; discriminate.
Qed.

Lemma batch_without_a_list_witness :
  do_POST Demo.site (Sample.post "/api/batch-scrape" (PDict [])) Sample.busy
  = (Sample.busy, Normal (send_json (PDict [("results", PList [])]) 200))
  /\ do_POST Demo.site (Sample.post "/api/batch-scrape" (PDict [("urls", PNone)]))
       Sample.busy
     = (Sample.busy, Raise (TypeError "'NoneType' object is not subscriptable")).
Proof.
  split.
  - apply (batch_without_a_list Demo.site
             (Sample.post "/api/batch-scrape" (PDict []))
             (body := "{}") (query := EmptyString) (d := []) Sample.busy);
      reflexivity.
  - apply (proj2 (batch_without_a_list Demo.site
                    (Sample.post "/api/batch-scrape" (PDict [("urls", PNone)]))
                    (body := Sample.json_text (PDict [("urls", PNone)]))
                    (query := EmptyString) (d := [("urls", PNone)]) Sample.busy
                    eq_refl eq_refl eq_refl) PNone eq_refl).
    left. reflexivity.
Defined.

(** X19: a body that is valid JSON but not an object (a list, a number, a
    string) makes both [/api/scrape] and [/api/batch-scrape] raise
    [AttributeError] for the missing [get]; the state is unchanged. *)
Theorem non_object_body_raises (X : Externals) (req : post_request)
    (body path query : string) (data : pyval) (w : world) :
  read_body X req = Normal body ->
  json_loads X body = Normal data ->
  (forall d, data <> PDict d) ->
  urlparse X (post_path req) = Normal (path, query) ->
  path = "/api/scrape" \/ path = "/api/batch-scrape" ->
  do_POST X req w = (w, Raise (no_attribute data "get")).
Proof.
  intros Hb Hj Hd Hu Hp. unfold do_POST, bind, lift. rewrite Hb, Hj, Hu.
  destruct Hp as [-> | ->]; simpl;
    destruct data; try reflexivity; now destruct (Hd d).
Qed.

Lemma non_object_body_raises_witness :
  do_POST Sample.site (Sample.post "/api/scrape" (PList [])) Sample.busy
  = (Sample.busy, Raise (AttributeError "'list' object has no attribute 'get'"))
  /\ do_POST Demo.site (Sample.post "/api/batch-scrape" (PInt 7)) Sample.busy
     = (Sample.busy, Raise (AttributeError "'int' object has no attribute 'get'")).
Proof.
  split.
  - apply (non_object_body_raises Sample.site (Sample.post "/api/scrape" (PList []))
             (body := "[]") (path := "/api/scrape") (query := EmptyString)
             (data := PList []) Sample.busy); try reflexivity; try discriminate.
    left. reflexivity.
  - apply (non_object_body_raises Demo.site (Sample.post "/api/batch-scrape" (PInt 7))
             (body := "7") (path := "/api/batch-scrape") (query := EmptyString)
             (data := PInt 7) Sample.busy); try reflexivity; try discriminate.
    right. reflexivity.
Defined.

(** X20: without a [Content-Length] header, or with one that is not
    positive, the bytes of the request are not read and the body counts as
    the empty object: [/api/scrape] answers 400 "URL is required" whatever
    was sent. *)
Theorem scrape_without_content_length_is_rejected (X : Externals)
    (req : post_request) (query : string) (w : world) :
  (post_content_length req = None
   \/ exists s n, post_content_length req = Some s
                  /\ int_of_str s = Normal n /\ n <= 0) ->
  json_loads X "{}" = Normal (PDict []) ->
  urlparse X (post_path req) = Normal ("/api/scrape", query) ->
  read_body X req = Normal "{}"
  /\ do_POST X req w
     = (w, Normal (send_json (PDict [("error", PStr "URL is required")]) 400)).
Proof.
  intros Hcl Hj Hu.
  assert (Hb : read_body X req = Normal "{}").
  { unfold read_body. destruct Hcl as [-> | (s & n & -> & -> & Hn)]; simpl.
    - reflexivity.
    - destruct (0 <? n) eqn:E; [apply Z.ltb_lt in E; lia|reflexivity]. }
  split; [exact Hb|].
  now rewrite (do_POST_scrape X req w Hb Hj Hu).
Qed.

Lemma scrape_without_content_length_is_rejected_witness :
  do_POST Sample.site
    (mkPost "/api/scrape" None
       (Sample.json_text (PDict [("url", PStr "http://down.example")])))
    Sample.busy
  = (Sample.busy, Normal (send_json (PDict [("error", PStr "URL is required")]) 400))
  /\ do_POST Sample.site
       (mkPost "/api/scrape" (Some " -0 ")
          (Sample.json_text (PDict [("url", PStr "http://down.example")])))
       Sample.busy
     = (Sample.busy, Normal (send_json (PDict [("error", PStr "URL is required")]) 400)).
Proof.
  split.
  - apply (scrape_without_content_length_is_rejected Sample.site
             (mkPost "/api/scrape" None
                (Sample.json_text (PDict [("url", PStr "http://down.example")])))
             (query := EmptyString) Sample.busy); try reflexivity.
    left. reflexivity.
  - apply (scrape_without_content_length_is_rejected Sample.site
             (mkPost "/api/scrape" (Some " -0 ")
                (Sample.json_text (PDict [("url", PStr "http://down.example")])))
             (query := EmptyString) Sample.busy); try reflexivity.
    right. exists " -0 ", 0. repeat split. lia.
Defined.

(** * Across the handlers *)

Ltac known_status :=
  simpl;
  first [ left; reflexivity | right; left; reflexivity
        | right; right; reflexivity | right; reflexivity ].

Ltac json_object := split; [reflexivity|eexists; reflexivity].

(** X21: every response of [do_POST] is a JSON object with status 200, 400
    or 404, sent with the cross-origin header; every response of [do_GET] is
    such an object with status 200 or 404, or the HTML page with status
    200. *)
Theorem responses_have_known_shape (X : Externals) :
  (forall (req : post_request) (w : world) (resp : response),
      snd (do_POST X req w) = Normal resp ->
      (status resp = 200 \/ status resp = 400 \/ status resp = 404)
      /\ json_answer resp)
  /\ (forall (target : string) (w : world) (resp : response),
        snd (do_GET X target w) = Normal resp ->
        (json_answer resp /\ (status resp = 200 \/ status resp = 404))
        \/ resp = send_html (UI_HTML X) 200).
Proof.
  split.
  - intros req w resp. unfold do_POST, bind, lift.
    destruct (read_body X req) as [body|e]; simpl; [|discriminate].
    destruct (json_loads X body) as [data|e].
    2:{ destruct (String.eqb (exn_class e) "JSONDecodeError"); simpl;
          [|discriminate].
        intros H. injection H as <-. split; [known_status|json_object]. }
    destruct (urlparse X (post_path req)) as [[path query]|e]; simpl; [|discriminate].
    destruct (String.eqb path "/api/scrape").
    { destruct (as_dict data) as [d|e]; simpl; [|discriminate].
      destruct (negb (py_truthy (dict_get_default d "url" (PStr "")))).
      - simpl. intros H. injection H as <-. split; [known_status|json_object].
      - destruct (run_scrape_total X (dict_get_default d "url" (PStr ""))
                    (dict_get_default d "fetcher" (PStr "basic"))
                    (dict_get_default d "selectors" (PStr ""))
                    (dict_get_default d "extract_type" (PStr "full")) w)
          as (w' & r & Hr & _).
        rewrite Hr. simpl. intros H. injection H as <-. split; [known_status|json_object]. }
    destruct (String.eqb path "/api/batch-scrape").
    { destruct (as_dict data) as [d|e]; simpl; [|discriminate].
      destruct (first_ten (dict_get_default d "urls" (PList []))) as [items|e];
        simpl; [|discriminate].
      destruct (batch_loop X items _ _ [] w) as [w' [rs|e]]; simpl; [|discriminate].
      intros H. injection H as <-. split; [known_status|json_object]. }
    simpl. intros H. injection H as <-. split; [known_status|json_object].
  - intros target w resp. unfold do_GET, bind, lift.
    destruct (urlparse X target) as [[path query]|e]; simpl; [|discriminate].
    destruct (String.eqb path "/" || String.eqb path "/index.html").
    { simpl. intros H. injection H as <-. now right. }
    destruct (String.eqb path "/api/status").
    { simpl. intros H. injection H as <-. left. split; [json_object|known_status]. }
    destruct (String.eqb path "/api/history").
    { destruct (history_limit (parse_qs X query)); simpl; [|discriminate].
      intros H. injection H as <-. left. split; [json_object|known_status]. }
    destruct (String.eqb path "/api/presets").
    { simpl. intros H. injection H as <-. left. split; [json_object|known_status]. }
    destruct (String.eqb path "/api/clear-history"); simpl;
      intros H; injection H as <-; left; (split; [json_object|known_status]).
Qed.

Lemma responses_have_known_shape_witness :
  exists resp : response,
    snd (do_POST Sample.site (mkPost "/api/scrape" (Some "5") "{oops") Sample.fresh)
    = Normal resp
    /\ status resp = 400 /\ json_answer resp.
Proof.
  set (resp := send_json (PDict [("error", PStr "Invalid JSON")]) 400).
  assert (H : snd (do_POST Sample.site (mkPost "/api/scrape" (Some "5") "{oops")
                     Sample.fresh) = Normal resp) by reflexivity.
  exists resp. split; [exact H|]. split; [reflexivity|].
  exact (proj2 (proj1 (responses_have_known_shape Sample.site) _ _ _ H)).
Defined.

Ltac unchanged_history := exists []; simpl; now rewrite app_nil_r.

(** X22: no POST request removes an entry of the history: whatever the
    request, and even when the handler raises, the history afterwards is the
    one before followed by what was added. *)
Theorem post_never_shrinks_history (X : Externals) (req : post_request) (w : world) :
  exists added : list pyval,
    SCRAPE_HISTORY (fst (do_POST X req w)) = SCRAPE_HISTORY w ++ added.
Proof.
  unfold do_POST, bind, lift.
  destruct (read_body X req) as [body|e]; simpl; [|unchanged_history].
  destruct (json_loads X body) as [data|e].
  2:{ destruct (String.eqb (exn_class e) "JSONDecodeError"); unchanged_history. }
  destruct (urlparse X (post_path req)) as [[path query]|e]; simpl; [|unchanged_history].
  destruct (String.eqb path "/api/scrape").
  { destruct (as_dict data) as [d|e]; simpl; [|unchanged_history].
    destruct (negb (py_truthy (dict_get_default d "url" (PStr "")))); [unchanged_history|].
    destruct (run_scrape_keeps_history X (dict_get_default d "url" (PStr ""))
                (dict_get_default d "fetcher" (PStr "basic"))
                (dict_get_default d "selectors" (PStr ""))
                (dict_get_default d "extract_type" (PStr "full")) w) as (added & Ha).
    exists added. rewrite <- Ha.
    destruct (run_scrape X _ _ _ _ w) as [w' [r|e]]; reflexivity. }
  destruct (String.eqb path "/api/batch-scrape"); [|unchanged_history].
  destruct (as_dict data) as [d|e]; simpl; [|unchanged_history].
  destruct (first_ten (dict_get_default d "urls" (PList []))) as [items|e];
    simpl; [|unchanged_history].
  destruct (batch_loop_keeps_history X
              (dict_get_default d "fetcher" (PStr "basic"))
              (dict_get_default d "extract_type" (PStr "full")) items [] w)
    as (added & Ha).
  exists added. rewrite <- Ha.
  destruct (batch_loop X items _ _ [] w) as [w' [rs|e]]; reflexivity.
Qed.







(** * The failures the handlers guard *)





